(** * Keithley 2100 VISA driver: mode selection and reply decoding

    A shallow embedding of [Keithley2100VISADriver] from
    [pymodaq_plugins_keithley/hardware/keithley2100/keithley2100_VISADriver.py]:
    the methods [set_mode] and [data] together with the small write-only
    helpers they call, over an explicit driver object and an explicit log
    of what was sent through the VISA session.

    Conventions of the embedding:
    - a Python [str] is a [string] (a sequence of bytes; the modelled
      protocol is ASCII), [str.upper] and [str.isdigit] act on ASCII;
    - an attribute of [self] that [__init__] does not create is an
      [option]: reading it while unset raises [AttributeError];
    - a method is a function from the driver to the driver after the call
      and either a value or the exception raised, so that what was sent
      before an exception stays visible;
    - the VISA session always delivers: timeouts and I/O errors of the
      transport are outside the model, the reply of a query is an
      argument. *)

From Stdlib Require Import ZArith Ascii String List Lia Bool.
From Stdlib Require Import DecimalString.
From Stdlib Require Import Floats.
From stdpp Require Import gmap strings.

Set Warnings "-inexact-float".
#[local] Arguments String.append !s1 s2 : simpl nomatch.
Local Open Scope string_scope.
Local Open Scope list_scope.

(** ** Python strings *)

Module PyStr.

(** [c.isdigit()] on an ASCII character. *)
Definition isdigit (c : ascii) : bool :=
  let n := nat_of_ascii c in (48 <=? n)%nat && (n <=? 57)%nat.

(** One character of [s.upper()]. *)
Definition upper_ascii (c : ascii) : ascii :=
  let n := nat_of_ascii c in
  if (97 <=? n)%nat && (n <=? 122)%nat then ascii_of_nat (n - 32) else c.

(** [s.upper()] *)
Fixpoint upper (s : string) : string :=
  match s with
  | EmptyString => EmptyString
  | String c s' => String (upper_ascii c) (upper s')
  end.

(** [sub in s] *)
Fixpoint contains (sub s : string) : bool :=
  String.prefix sub s ||
  match s with
  | EmptyString => false
  | String _ s' => contains sub s'
  end.

(** [s.count(c)] for a one-character [c]. *)
Fixpoint count (c : ascii) (s : string) : nat :=
  match s with
  | EmptyString => 0
  | String a s' => (if Ascii.eqb a c then 1 else 0) + count c s'
  end.

(** [s.split(c)] for a one-character separator: never the empty list. *)
Fixpoint split (c : ascii) (s : string) : list string :=
  match s with
  | EmptyString => [EmptyString]
  | String a s' =>
      if Ascii.eqb a c then EmptyString :: split c s'
      else match split c s' with
           | [] => [String a EmptyString]
           | t :: ts => String a t :: ts
           end
  end.

(** [sep.join(l)] *)
Fixpoint join (sep : string) (l : list string) : string :=
  match l with
  | [] => EmptyString
  | [x] => x
  | x :: l' => x ++ sep ++ join sep l'
  end.

(** [s[n:]] *)
Fixpoint drop (n : nat) (s : string) : string :=
  match n, s with
  | O, _ => s
  | S _, EmptyString => EmptyString
  | S n', String _ s' => drop n' s'
  end.

(** [s[:-k]] for [k >= 1]: all but the last [k] characters. *)
Definition drop_last (k : nat) (s : string) : string :=
  String.substring 0 (String.length s - k) s.

(** [s[-k]] for [k >= 1]: the [k]-th character from the end, an
    [IndexError] ([None]) when the string is shorter. *)
Definition from_end (k : nat) (s : string) : option ascii :=
  if (k <=? String.length s)%nat then String.get (String.length s - k) s
  else None.

(** [s[1:-1]] *)
Definition strip_ends (s : string) : string :=
  drop_last 1 (drop 1 s).

(** [str(n)] for an [int]. *)
Definition of_int (n : Z) : string :=
  NilZero.string_of_int (Z.to_int n).

End PyStr.

(** [l[k::3]]: every third element from index [k]. *)
Fixpoint stride3 {A : Type} (k : nat) (l : list A) : list A :=
  match l with
  | [] => []
  | x :: l' =>
      match k with
      | O => x :: stride3 2 l'
      | S k' => stride3 k' l'
      end
  end.

(** ** Conversion of a string to a binary64 float

    [np.array(list_of_str, dtype=float)] converts each string the way
    [float(s)] does: surrounding white space is dropped, then an optional
    sign, decimal digits with an optional fractional part, and an optional
    decimal exponent are read; the decimal value is rounded to the nearest
    binary64 number, ties to even.  The spellings of infinity and of
    not-a-number are left out: they do not end in a digit, and every string
    [data] converts is empty or ends in a digit. *)

Module PyFloat.

Definition is_space (c : ascii) : bool :=
  let n := nat_of_ascii c in
  ((9 <=? n)%nat && (n <=? 13)%nat) || (n =? 32)%nat.

Fixpoint lstrip (s : string) : string :=
  match s with
  | String c s' => if is_space c then lstrip s' else s
  | EmptyString => s
  end.

Fixpoint all_space (s : string) : bool :=
  match s with
  | String c s' => is_space c && all_space s'
  | EmptyString => true
  end.

Definition digit_val (c : ascii) : Z := Z.of_nat (nat_of_ascii c - 48).

(** Reads a run of digits: the number read so far, how many digits were
    read, and what follows them. *)
Fixpoint digits (s : string) (acc : Z) (n : nat) : Z * nat * string :=
  match s with
  | String c s' =>
      if PyStr.isdigit c then digits s' (10 * acc + digit_val c)%Z (S n)
      else (acc, n, s)
  | EmptyString => (acc, n, s)
  end.

Definition sign (s : string) : bool * string :=
  match s with
  | String "-" s' => (true, s')
  | String "+" s' => (false, s')
  | _ => (false, s)
  end.

Definition is_exp_mark (c : ascii) : bool :=
  Ascii.eqb c "e" || Ascii.eqb c "E".

(** The decimal number a string denotes: sign, digits [m] and decimal
    exponent [e], for the value [(-1)^neg * m * 10^e]. *)
Definition parse_decimal (s : string) : option (bool * Z * Z) :=
  let '(neg, s1) := sign (lstrip s) in
  let '(m1, n1, s2) := digits s1 0%Z 0 in
  let '(m2, n2, s3) :=
    match s2 with
    | String "." s' => digits s' m1 0
    | _ => (m1, 0, s2)
    end in
  if (n1 + n2 =? 0)%nat then None
  else
    match s3 with
    | String c s4 =>
        if is_exp_mark c then
          let '(eneg, s5) := sign s4 in
          let '(ex, ne, s6) := digits s5 0%Z 0 in
          if (ne =? 0)%nat then None
          else if all_space s6
               then Some (neg, m2, ((if eneg then - ex else ex) - Z.of_nat n2)%Z)
               else None
        else if all_space s3 then Some (neg, m2, (- Z.of_nat n2)%Z) else None
    | EmptyString => Some (neg, m2, (- Z.of_nat n2)%Z)
    end.

(** Rounding of [(-1)^neg * m * 10^e] to binary64, to nearest, ties to
    even; overflow gives an infinity. *)
Definition round_decimal (neg : bool) (m e : Z) : float :=
  match m with
  | Zpos p =>
      SF2Prim
        (if (0 <=? e)%Z
         then binary_normalize prec emax (cond_Zopp neg (m * 10 ^ e)) 0 false
         else SFdiv prec emax (S754_finite neg p 0)
                (S754_finite false (Z.to_pos (10 ^ (- e))) 0))
  | _ => if neg then neg_zero else zero
  end.

(** [float(s)]; [None] is the [ValueError]. *)
Definition of_string (s : string) : option float :=
  match parse_decimal s with
  | Some (neg, m, e) => Some (round_decimal neg m e)
  | None => None
  end.

End PyFloat.

(** ** The driver object and its methods *)

(** What goes through the VISA session, oldest first. *)
Inductive io_event : Type :=
| Write (cmd : string)
| Query (cmd : string).

(** The exceptions the modelled methods can raise. *)
Inductive exn : Type :=
| AttributeError (attr : string)
| KeyError (key : string)
| IndexError
| ValueError (text : string).

Inductive result (A : Type) : Type :=
| Ok (a : A)
| Raise (e : exn).
Arguments Ok {A} a.
Arguments Raise {A} e.

Definition rbind {A B : Type} (r : result A) (k : A -> result B) : result B :=
  match r with
  | Ok a => k a
  | Raise e => Raise e
  end.

(** A channel identifier as the plugin stores it in [modes_channels_dict]:
    an [int] or a [str]. *)
Inductive channel : Type :=
| ChanInt (n : Z)
| ChanStr (s : string).

(** The attributes of a [Keithley2100VISADriver].  [_instr] is [None]
    until [init_hardware] opens the session, here the list of what was
    sent through it.  The five attributes after it are commented out of
    the class body and not set by [__init__]: [set_mode] creates three of
    them, the plugin that owns the driver the other two. *)
Record driver : Type := Driver {
  _instr : option (list io_event);
  rsrc_name : string;
  instr : string;
  sample_count_1 : option bool;
  reading_scan_list : option bool;
  current_mode : option string;
  channels_scan_list : option string;
  modes_channels_dict : option (gmap string (list channel))
}.

(** [Keithley2100VISADriver(rsrc_name)] *)
Definition init (name : string) : driver :=
  Driver None name "" None None None None None.

Definition set_instr (l : list io_event) (d : driver) : driver :=
  Driver (Some l) (rsrc_name d) (instr d) (sample_count_1 d)
    (reading_scan_list d) (current_mode d) (channels_scan_list d)
    (modes_channels_dict d).

Definition set_sample_count_1 (b : bool) (d : driver) : driver :=
  Driver (_instr d) (rsrc_name d) (instr d) (Some b)
    (reading_scan_list d) (current_mode d) (channels_scan_list d)
    (modes_channels_dict d).

Definition set_reading_scan_list (b : bool) (d : driver) : driver :=
  Driver (_instr d) (rsrc_name d) (instr d) (sample_count_1 d)
    (Some b) (current_mode d) (channels_scan_list d)
    (modes_channels_dict d).

Definition set_current_mode (m : string) (d : driver) : driver :=
  Driver (_instr d) (rsrc_name d) (instr d) (sample_count_1 d)
    (reading_scan_list d) (Some m) (channels_scan_list d)
    (modes_channels_dict d).

(** A method body: the driver after it, and its value or exception. *)
Definition M (A : Type) : Type := driver -> driver * result A.

Definition ret {A : Type} (a : A) : M A := fun d => (d, Ok a).

Definition raise {A : Type} (e : exn) : M A := fun d => (d, Raise e).

Definition bind {A B : Type} (m : M A) (k : A -> M B) : M B :=
  fun d =>
    match m d with
    | (d', Ok a) => k a d'
    | (d', Raise e) => (d', Raise e)
    end.

Declare Scope py_scope.
Delimit Scope py_scope with py.
Notation "'let*' x := m 'in' k" := (bind m (fun x => k))
  (at level 10, x name, m at level 100, k at level 200,
   only parsing) : py_scope.
Notation "m ;; k" := (bind m (fun _ => k))
  (at level 100, k at level 200, only parsing,
   right associativity) : py_scope.
Local Open Scope py_scope.

(** Reading an attribute that may not exist yet. *)
Definition getattr {A : Type} (name : string) (field : driver -> option A) : M A :=
  fun d =>
    match field d with
    | Some a => (d, Ok a)
    | None => (d, Raise (AttributeError name))
    end.

Definition setattr (upd : driver -> driver) : M unit :=
  fun d => (upd d, Ok tt).

(** [self._instr.write(cmd)] *)
Definition write (cmd : string) : M unit :=
  fun d =>
    match _instr d with
    | Some log => (set_instr (log ++ [Write cmd]) d, Ok tt)
    | None => (d, Raise (AttributeError "write"))
    end.

(** [self._instr.query(cmd)], the instrument answering [reply]. *)
Definition query (cmd reply : string) : M string :=
  fun d =>
    match _instr d with
    | Some log => (set_instr (log ++ [Query cmd]) d, Ok reply)
    | None => (d, Raise (AttributeError "query"))
    end.

Definition clear_buffer : M unit := write "TRAC:CLE".
Definition clear_buffer_off : M unit := write "TRAC:CLE:AUTO OFF".
Definition clear_buffer_on : M unit := write "TRAC:CLE:AUTO ON".
Definition init_cont_off : M unit := write "INIT:CONT OFF".
Definition init_cont_on : M unit := write "INIT:CONT ON".
Definition stop_acquisition : M unit := write "ROUT:SCAN:LSEL NONE".
Definition reset : M unit := write "*CLS" ;; write "*RST".

(** *** [repr] and [str] of the channel lists *)

Module PyRepr.

Definition hex_digit (n : nat) : ascii :=
  if (n <? 10)%nat then ascii_of_nat (48 + n) else ascii_of_nat (87 + n).

Definition backslash : ascii := Eval cbv in ascii_of_nat 92.
Definition dquote : ascii := Eval cbv in ascii_of_nat 34.
Definition squote : ascii := Eval cbv in ascii_of_nat 39.

Definition two (a b : ascii) : string := String a (String b EmptyString).

(** One character inside [repr(s)], [q] being the quote chosen. *)
Definition escape (q c : ascii) : string :=
  let n := nat_of_ascii c in
  if Ascii.eqb c backslash then two backslash backslash
  else if Ascii.eqb c q then two backslash q
  else if (n =? 9)%nat then two backslash "t"
  else if (n =? 10)%nat then two backslash "n"
  else if (n =? 13)%nat then two backslash "r"
  else if (n <? 32)%nat || (n =? 127)%nat
       then two backslash "x" ++ two (hex_digit (n / 16)) (hex_digit (n mod 16))
       else String c EmptyString.

Fixpoint escape_all (q : ascii) (s : string) : string :=
  match s with
  | EmptyString => EmptyString
  | String c s' => escape q c ++ escape_all q s'
  end.

(** [repr(s)] for a [str]: double quotes only when the string has a
    single quote and no double quote. *)
Definition of_str (s : string) : string :=
  let q : ascii :=
    if (0 <? PyStr.count squote s)%nat && (PyStr.count dquote s =? 0)%nat
    then dquote else squote in
  String q (escape_all q s) ++ String q EmptyString.

Definition of_channel (c : channel) : string :=
  match c with
  | ChanInt n => PyStr.of_int n
  | ChanStr s => of_str s
  end.

(** [str(l)] for a list. *)
Definition of_list (l : list channel) : string :=
  "[" ++ PyStr.join ", " (map of_channel l) ++ "]".

End PyRepr.

(** *** [set_mode] *)

(** [self.modes_channels_dict[mode]] *)
Definition getitem (dict : gmap string (list channel)) (key : string)
  : M (list channel) :=
  match dict !! key with
  | Some l => ret l
  | None => raise (KeyError key)
  end.

(** [1 + channels.count(',')] *)
Definition samp_count_of (channels : string) : Z :=
  (1 + Z.of_nat (PyStr.count "," channels))%Z.

(** The commands of the two scan paths after the trigger source: disable a
    running scan, program the scan list, start on trigger, enable. *)
Definition program_scan (channels : string) : M unit :=
  write "ROUT:SCAN:LSEL NONE" ;;
  write ("ROUT:SCAN " ++ channels) ;;
  write "ROUT:SCAN:TSO IMM" ;;
  write "ROUT:SCAN:LSEL INT".

(** [set_mode(mode)]: the value returned is [channels] on the rear-panel
    path and [None] on the front-panel one. *)
Definition set_mode (mode : string) : M (option string) :=
  let mode := PyStr.upper mode in
  if negb (PyStr.contains "SCAN" mode) then
    (* FRONT panel *)
    init_cont_on ;;
    setattr (set_sample_count_1 true) ;;
    setattr (set_reading_scan_list false) ;;
    write ("FUNC '" ++ mode ++ "'") ;;
    ret None
  else
    (* REAR panel *)
    clear_buffer ;;
    init_cont_off ;;
    let mode := PyStr.drop 5 mode in
    setattr (set_current_mode mode) ;;
    if PyStr.contains "SCAN_LIST" mode then
      setattr (set_reading_scan_list true) ;;
      setattr (set_sample_count_1 false) ;;
      let* scan_list := getattr "channels_scan_list" channels_scan_list in
      let channels := ("(@" ++ scan_list ++ ")")%string in
      write "TRIG:COUN 1" ;;
      write "TRIG:SOUR BUS" ;;
      let samp_count := samp_count_of channels in
      write ("SAMP:COUN " ++ PyStr.of_int samp_count) ;;
      program_scan channels ;;
      ret (Some channels)
    else
      setattr (set_reading_scan_list false) ;;
      let* dict := getattr "modes_channels_dict" modes_channels_dict in
      let* chans := getitem dict mode in
      let channels :=
        ("(@" ++ PyStr.strip_ends (PyRepr.of_list chans) ++ ")")%string in
      write "TRIG:COUN 1" ;;
      let samp_count := samp_count_of channels in
      write ("SAMP:COUN " ++ PyStr.of_int samp_count) ;;
      if (samp_count =? 1)%Z then
        init_cont_on ;;
        write "TRIG:SOUR IMM" ;;
        write "ROUT:SCAN:LSEL NONE" ;;
        write ("ROUT:CLOS " ++ channels) ;;
        write ("FUNC '" ++ mode ++ "'") ;;
        (* the log line formats [self.sample_count_1] *)
        let* sc1 := getattr "sample_count_1" sample_count_1 in
        (if negb sc1 then setattr (set_sample_count_1 true) else ret tt) ;;
        setattr (set_reading_scan_list false) ;;
        ret (Some channels)
      else
        setattr (set_sample_count_1 false) ;;
        write "TRIG:SOUR BUS" ;;
        program_scan channels ;;
        ret (Some channels).

(** *** [data] *)

(** The inner [for l in range(len(tok))] loop of [data]: what it appends
    to the string being built for token [tok].  The scan goes from the
    last character backwards and stops at the first digit; a token with
    no digit appends nothing. *)
Fixpoint strip_units_loop (tok : string) (range : list nat) : result string :=
  match range with
  | [] => Ok EmptyString
  | l :: rest =>
      match PyStr.from_end (l + 1) tok with
      | None => Raise IndexError
      | Some test_carac =>
          if PyStr.isdigit test_carac
          then Ok (if (l =? 0)%nat then tok else PyStr.drop_last l tok)
          else strip_units_loop tok rest
      end
  end.

Definition strip_units (tok : string) : result string :=
  strip_units_loop tok (seq 0 (String.length tok)).

(** [l[j]] on a list. *)
Definition list_item {A : Type} (l : list A) (j : nat) : result A :=
  match nth_error l j with
  | Some x => Ok x
  | None => Raise IndexError
  end.

(** The outer [for j in range(len(list_measurements))] loop, on the pair
    [(str_measurements, str_times)]. *)
Fixpoint extract_loop (list_measurements list_times : list string)
    (range : list nat) (acc : string * string) : result (string * string) :=
  match range with
  | [] => Ok acc
  | j :: rest =>
      let '(str_measurements, str_times) := acc in
      let '(str_measurements, str_times) :=
        if negb (j =? 0)%nat
        then (str_measurements ++ ",", str_times ++ ",")%string
        else (str_measurements, str_times) in
      rbind (list_item list_measurements j) (fun m =>
      rbind (strip_units m) (fun m' =>
      rbind (list_item list_times j) (fun t =>
      rbind (strip_units t) (fun t' =>
      extract_loop list_measurements list_times rest
        ((str_measurements ++ m')%string, (str_times ++ t')%string)))))
  end.

(** [np.array(l, dtype=float)] on a list of strings. *)
Fixpoint np_array_float (l : list string) : result (list float) :=
  match l with
  | [] => Ok []
  | s :: l' =>
      match PyFloat.of_string s with
      | None => Raise (ValueError s)
      | Some x => rbind (np_array_float l') (fun xs => Ok (x :: xs))
      end
  end.

(** Everything [data] does after the query, for the answer [str_answer]
    and the value [single] of [self.sample_count_1]. *)
Definition decode (str_answer : string) (single : bool)
  : result (list float * list float) :=
  let list_split_answer := PyStr.split "," str_answer in
  let list_measurements := stride3 0 list_split_answer in
  let list_times := stride3 1 list_split_answer in
  rbind (extract_loop list_measurements list_times
           (seq 0 (length list_measurements)) (EmptyString, EmptyString))
    (fun '(str_measurements, str_times) =>
  let list_measurements_values := PyStr.split "," str_measurements in
  let list_times_values := PyStr.split "," str_times in
  rbind (np_array_float list_measurements_values)
    (fun array_measurements_values =>
  rbind (if negb single then np_array_float list_times_values
         else Ok [0%float])
    (fun array_times_values =>
  Ok (array_measurements_values, array_times_values)))).

Definition lift {A : Type} (r : result A) : M A := fun d => (d, r).

(** [data()], the instrument answering [reply] to the fetch query: the
    answer, the measurement values and their time stamps. *)
Definition data (reply : string) : M (string * list float * list float) :=
  let* single := getattr "sample_count_1" sample_count_1 in
  let* str_answer :=
    (if negb single
     then write "INIT" ;; write "*TRG" ;; query "FETCH?" reply
     else query "FETCH?" reply) in
  let* arrays := lift (decode str_answer single) in
  ret (str_answer, fst arrays, snd arrays).


(** ** Example drivers *)

(** An opened driver whose plugin has filled the scan list and the table
    of channels per function. *)
Definition example_driver : driver :=
  Driver (Some []) "ASRL1::INSTR" "" (Some false) (Some false) None
    (Some "101,102,103")
    (Some {[ "VOLT:DC" := [ChanInt 101; ChanInt 102];
             "RES" := [ChanInt 105];
             "TEMP" := [] ]}).

(** The same with an empty scan list. *)
Definition empty_scan_driver : driver :=
  Driver (Some []) "ASRL1::INSTR" "" (Some false) (Some false) None
    (Some "") (Some ∅).

(** The modes the docstring of [set_mode] lists as supported. *)
Definition supported_modes : list string :=
  ["SCAN_LIST"; "VDC"; "VAC"; "IDC"; "IAC"; "R2W"; "R4W"; "FREQ"; "TEMP"].

(** The keys of [modes_channels_dict], the function tokens. *)
Definition function_tokens : list string :=
  ["VOLT:DC"; "VOLT:AC"; "CURR:DC"; "CURR:AC"; "RES"; "FRES"; "FREQ"; "TEMP"].

(** The request carries the rear-panel marker. *)
Definition rear_panel (mode : string) : bool :=
  PyStr.contains "SCAN" (PyStr.upper mode).

(** What is left of a rear-panel request after the marker is cut off. *)
Definition rear_token (mode : string) : string :=
  PyStr.drop 5 (PyStr.upper mode).

(** A rear-panel request for the whole scan list. *)
Definition full_scan_list (mode : string) : bool :=
  rear_panel mode && PyStr.contains "SCAN_LIST" (rear_token mode).

Definition failed {A : Type} (r : result A) : bool :=
  match r with
  | Ok _ => false
  | Raise _ => true
  end.

(** The rear-panel request returns: what the driver must hold for it. *)
Definition rear_returns (mode : string) (d : driver) : Prop :=
  if PyStr.contains "SCAN_LIST" (rear_token mode)
  then exists scan_list, channels_scan_list d = Some scan_list
  else exists dict chans b,
      modes_channels_dict d = Some dict /\
      dict !! rear_token mode = Some chans /\
      sample_count_1 d = Some b.

(** The string was programmed: it is the argument of a [ROUT:SCAN] or of a
    [ROUT:CLOS] command in the log. *)
Definition programmed (channels : string) (d : driver) : Prop :=
  exists log,
    _instr d = Some log /\
    (In (Write ("ROUT:SCAN " ++ channels)) log \/
     In (Write ("ROUT:CLOS " ++ channels)) log).

(** ** The other methods of the driver *)

(** [mode_temp_frtd(channel, transducer, frtd_type)] *)
Definition mode_temp_frtd (channel transducer frtd_type : string) : M unit :=
  write ("TEMP:TRAN " ++ transducer ++ "," ++ channel) ;;
  write ("TEMP:FRTD:TYPE " ++ frtd_type ++ "," ++ channel).

(** [mode_temp_tc(channel, transducer, tc_type, ref_junc)] *)
Definition mode_temp_tc (channel transducer tc_type ref_junc : string) : M unit :=
  write ("TEMP:TRAN " ++ transducer ++ "," ++ channel) ;;
  write ("TEMP:TC:TYPE " ++ tc_type ++ "," ++ channel) ;;
  write ("TEMP:RJUN:RSEL " ++ ref_junc ++ "," ++ channel).

(** [mode_temp_ther(channel, transducer, ther_type)] *)
Definition mode_temp_ther (channel transducer ther_type : string) : M unit :=
  write ("TEMP:TRAN " ++ transducer ++ "," ++ channel) ;;
  write ("TEMP:THER:TYPE " ++ ther_type ++ "," ++ channel).

(** [get_card()], [get_error()] and [get_idn()], the instrument answering
    [reply]. *)
Definition get_card (reply : string) : M string := query "*OPT?" reply.
Definition get_error (reply : string) : M string := query "SYST:ERR?" reply.
Definition get_idn (reply : string) : M string := query "*IDN?" reply.

(** The methods that only write: the buffer and initiation switches,
    [reset], [stop_acquisition] and the three temperature set-ups. *)
Definition write_only_methods
    (channel transducer kind ref_junc : string) : list (M unit) :=
  [clear_buffer; clear_buffer_off; clear_buffer_on;
   init_cont_off; init_cont_on; reset; stop_acquisition;
   mode_temp_frtd channel transducer kind;
   mode_temp_tc channel transducer kind ref_junc;
   mode_temp_ther channel transducer kind].

(** What [data] sends. *)
Definition fetch_commands (single : bool) : list io_event :=
  if single then [Query "FETCH?"]
  else [Write "INIT"; Write "*TRG"; Query "FETCH?"].

(** ** Notions used to state what the methods do *)

Definition is_write (e : io_event) : bool :=
  match e with
  | Write _ => true
  | Query _ => false
  end.

(** Every attribute but the session is the same in both drivers. *)
Definition same_attributes (d d' : driver) : Prop :=
  rsrc_name d' = rsrc_name d /\
  instr d' = instr d /\
  sample_count_1 d' = sample_count_1 d /\
  reading_scan_list d' = reading_scan_list d /\
  current_mode d' = current_mode d /\
  channels_scan_list d' = channels_scan_list d /\
  modes_channels_dict d' = modes_channels_dict d.

(** The configuration the plugin owns is the same in both drivers. *)
Definition same_configuration (d d' : driver) : Prop :=
  rsrc_name d' = rsrc_name d /\
  instr d' = instr d /\
  channels_scan_list d' = channels_scan_list d /\
  modes_channels_dict d' = modes_channels_dict d.

Fixpoint has_digit (s : string) : bool :=
  match s with
  | EmptyString => false
  | String c s' => PyStr.isdigit c || has_digit s'
  end.

(** A token without what follows its last digit; the empty string when it
    has no digit. *)
Fixpoint keep_to_last_digit (s : string) : string :=
  match s with
  | EmptyString => EmptyString
  | String c s' =>
      if has_digit s' then String c (keep_to_last_digit s')
      else if PyStr.isdigit c then String c EmptyString
      else EmptyString
  end.

(** The decoding of a reply said token by token: the measurements are the
    tokens at 0, 3, 6, ..., the time stamps the tokens at 1, 4, 7, ...,
    each cut after its last digit and converted; in single-sample mode the
    time stamps are not looked at. *)
Definition decode_by_token (tokens : list string) (single : bool)
  : result (list float * list float) :=
  rbind (np_array_float (map keep_to_last_digit (stride3 0 tokens)))
    (fun values =>
  rbind (if single then Ok [0%float]
         else np_array_float (map keep_to_last_digit (stride3 1 tokens)))
    (fun times => Ok (values, times))).

(** The commas inside the [repr] of the channels of a list. *)
Definition commas_inside (chans : list channel) : nat :=
  list_sum (map (fun c => PyStr.count "," (PyRepr.of_channel c)) chans).

(** ** [set_mode] in closed form *)

(** The driver [d] with the session log [log] and the three attributes
    [set_mode] assigns. *)
Definition configured (log : list io_event) (sc rs : option bool)
    (cm : option string) (d : driver) : driver :=
  Driver (Some log) (rsrc_name d) (instr d) sc rs cm
    (channels_scan_list d) (modes_channels_dict d).

(** What a call of [set_mode] comes to on an opened driver: the commands
    sent, the three attributes after the call, and the value returned or
    the exception raised. *)
Record outcome : Type := Outcome {
  sent : list io_event;
  sc_after : option bool;
  rs_after : option bool;
  cm_after : option string;
  returned : result (option string)
}.

(** The two commands every rear-panel request starts with. *)
Definition rear_prologue : list io_event :=
  [Write "TRAC:CLE"; Write "INIT:CONT OFF"].

Definition scan_list_commands (channels : string) : list io_event :=
  rear_prologue ++
  [Write "TRIG:COUN 1";
   Write "TRIG:SOUR BUS";
   Write ("SAMP:COUN " ++ PyStr.of_int (samp_count_of channels));
   Write "ROUT:SCAN:LSEL NONE";
   Write ("ROUT:SCAN " ++ channels);
   Write "ROUT:SCAN:TSO IMM";
   Write "ROUT:SCAN:LSEL INT"].

Definition single_channel_commands (channels token : string) : list io_event :=
  rear_prologue ++
  [Write "TRIG:COUN 1";
   Write ("SAMP:COUN " ++ PyStr.of_int (samp_count_of channels));
   Write "INIT:CONT ON";
   Write "TRIG:SOUR IMM";
   Write "ROUT:SCAN:LSEL NONE";
   Write ("ROUT:CLOS " ++ channels);
   Write ("FUNC '" ++ token ++ "'")].

Definition multi_channel_commands (channels : string) : list io_event :=
  rear_prologue ++
  [Write "TRIG:COUN 1";
   Write ("SAMP:COUN " ++ PyStr.of_int (samp_count_of channels));
   Write "TRIG:SOUR BUS";
   Write "ROUT:SCAN:LSEL NONE";
   Write ("ROUT:SCAN " ++ channels);
   Write "ROUT:SCAN:TSO IMM";
   Write "ROUT:SCAN:LSEL INT"].

Definition set_mode_outcome (mode : string) (d : driver) : outcome :=
  let upper := PyStr.upper mode in
  let token := PyStr.drop 5 upper in
  if negb (PyStr.contains "SCAN" upper) then
    Outcome [Write "INIT:CONT ON"; Write ("FUNC '" ++ upper ++ "'")]
      (Some true) (Some false) (current_mode d) (Ok None)
  else if PyStr.contains "SCAN_LIST" token then
    match channels_scan_list d with
    | Some scan_list =>
        let channels := ("(@" ++ scan_list ++ ")")%string in
        Outcome (scan_list_commands channels)
          (Some false) (Some true) (Some token) (Ok (Some channels))
    | None =>
        Outcome rear_prologue (Some false) (Some true) (Some token)
          (Raise (AttributeError "channels_scan_list"))
    end
  else
    match modes_channels_dict d with
    | Some dict =>
        match dict !! token with
        | Some chans =>
            let channels :=
              ("(@" ++ PyStr.strip_ends (PyRepr.of_list chans) ++ ")")%string in
            if (samp_count_of channels =? 1)%Z then
              match sample_count_1 d with
              | Some _ =>
                  Outcome (single_channel_commands channels token)
                    (Some true) (Some false) (Some token)
                    (Ok (Some channels))
              | None =>
                  Outcome (single_channel_commands channels token)
                    None (Some false) (Some token)
                    (Raise (AttributeError "sample_count_1"))
              end
            else
              Outcome (multi_channel_commands channels)
                (Some false) (Some false) (Some token) (Ok (Some channels))
        | None =>
            Outcome rear_prologue (sample_count_1 d) (Some false) (Some token)
              (Raise (KeyError token))
        end
    | None =>
        Outcome rear_prologue (sample_count_1 d) (Some false) (Some token)
          (Raise (AttributeError "modes_channels_dict"))
    end.

(** ** Strings: counting, joining, slicing *)

Section StringFacts.

Local Open Scope string_scope.

Lemma append_assoc (a b c : string) : (a ++ b) ++ c = a ++ (b ++ c).
Proof. induction a as [|x a IH]; simpl; [reflexivity | now rewrite IH]. Qed.

Lemma count_append (c : ascii) (a b : string) :
  PyStr.count c (a ++ b) = (PyStr.count c a + PyStr.count c b)%nat.
Proof.
  induction a as [|x a IH]; simpl; [reflexivity |].
  rewrite IH. lia.
Qed.

Lemma substring_append_left (a b : string) :
  String.substring 0 (String.length a) (a ++ b) = a.
Proof.
  induction a as [|x a IH]; simpl.
  - destruct b; reflexivity.
  - now rewrite IH.
Qed.

Lemma length_append (a b : string) :
  String.length (a ++ b) = (String.length a + String.length b)%nat.
Proof. induction a as [|x a IH]; simpl; [reflexivity | now rewrite IH]. Qed.

Lemma drop_last_append_one (a : string) (c : ascii) :
  PyStr.drop_last 1 (a ++ String c EmptyString) = a.
Proof.
  unfold PyStr.drop_last. rewrite length_append. simpl.
  replace (String.length a + 1 - 1)%nat with (String.length a) by lia.
  apply substring_append_left.
Qed.

(** [str(l)[1:-1]] is the list's items joined by a comma and a space. *)
Lemma strip_ends_of_list (l : list channel) :
  PyStr.strip_ends (PyRepr.of_list l)
  = PyStr.join ", " (map PyRepr.of_channel l).
Proof.
  unfold PyStr.strip_ends, PyRepr.of_list. simpl.
  apply drop_last_append_one.
Qed.

Lemma join_cons2 (sep x y : string) (l : list string) :
  PyStr.join sep (x :: y :: l) = x ++ sep ++ PyStr.join sep (y :: l).
Proof. reflexivity. Qed.

(** Items without a comma, joined by commas: one comma fewer than items. *)
Lemma count_join_comma (ids : list string) :
  Forall (fun s => PyStr.count "," s = 0%nat) ids ->
  PyStr.count "," (PyStr.join "," ids) = (length ids - 1)%nat.
Proof.
  induction 1 as [|x l Hx Hl IH]; [reflexivity |].
  destruct l as [|y l].
  - simpl. exact Hx.
  - rewrite join_cons2, !count_append, Hx, IH. simpl. lia.
Qed.

(** Two items or more, whatever they are, give a comma. *)
Lemma count_join_comma_space (l : list string) :
  (length l - 1 <= PyStr.count "," (PyStr.join ", " l))%nat.
Proof.
  induction l as [|x l IH]; [simpl; lia |].
  destruct l as [|y l]; [simpl; lia |].
  rewrite join_cons2, !count_append. simpl in *. lia.
Qed.

End StringFacts.

(** The sample count of a scan list of [n >= 1] comma-free items is [n]. *)
Lemma samp_count_scan_list (ids : list string) :
  Forall (fun s => PyStr.count "," s = 0%nat) ids ->
  (1 <= length ids)%nat ->
  samp_count_of ("(@" ++ PyStr.join "," ids ++ ")")%string
  = Z.of_nat (length ids).
Proof.
  intros Hids Hlen. unfold samp_count_of. simpl.
  rewrite count_append, (count_join_comma _ Hids). simpl. lia.
Qed.

(** The sample count of a function with [n] channels is at least [n]. *)
Lemma samp_count_function (chans : list channel) :
  (Z.of_nat (length chans) <=
   samp_count_of ("(@" ++ PyStr.strip_ends (PyRepr.of_list chans) ++ ")")%string)%Z.
Proof.
  unfold samp_count_of. rewrite strip_ends_of_list. simpl.
  rewrite count_append.
  pose proof (count_join_comma_space (map PyRepr.of_channel chans)) as H.
  rewrite length_map in H. lia.
Qed.

(** ** Running a method on a driver whose session is open *)

(** Unfolds the method of the goal on a driver given field by field. *)
Ltac run_method :=
  cbv beta iota zeta delta
    [bind ret raise lift setattr getattr getitem program_scan
     clear_buffer init_cont_on init_cont_off write query
     _instr rsrc_name instr sample_count_1 reading_scan_list current_mode
     channels_scan_list modes_channels_dict set_instr set_sample_count_1
     set_reading_scan_list set_current_mode negb fst snd].

(** Brings a log built command by command to the form [log ++ [...]]. *)
Ltac flatten_log := rewrite <- ?app_assoc; cbn [app].

(** Membership in a log written as [log ++ [...]]. *)
Ltac in_log :=
  apply in_or_app; right; cbn [In];
  repeat (first [left; reflexivity | right]).

(** C6. For every scan list of [n >= 2] channels (comma-free identifiers
    joined by commas in [channels_scan_list]), a request for the whole scan
    list on an opened driver sends exactly: clear buffer, continuous
    initiation off, trigger count 1, trigger source bus, sample count [n],
    scan off, the scan-list channels, scan timing immediate, scan on, in
    this order; the sample count programmed is [n]. *)
Theorem set_mode_scan_list_commands
    (mode : string) (d : driver) (log : list io_event) (ids : list string) :
  _instr d = Some log ->
  channels_scan_list d = Some (PyStr.join "," ids) ->
  Forall (fun s => PyStr.count "," s = 0%nat) ids ->
  (2 <= length ids)%nat ->
  full_scan_list mode = true ->
  exists d',
    set_mode mode d
    = (d', Ok (Some ("(@" ++ PyStr.join "," ids ++ ")")%string)) /\
    _instr d'
    = Some (log ++
        [Write "TRAC:CLE";
         Write "INIT:CONT OFF";
         Write "TRIG:COUN 1";
         Write "TRIG:SOUR BUS";
         Write ("SAMP:COUN " ++ PyStr.of_int (Z.of_nat (length ids)));
         Write "ROUT:SCAN:LSEL NONE";
         Write ("ROUT:SCAN (@" ++ PyStr.join "," ids ++ ")");
         Write "ROUT:SCAN:TSO IMM";
         Write "ROUT:SCAN:LSEL INT"]) /\
    sample_count_1 d' = Some false /\
    reading_scan_list d' = Some true.
Proof.
  intros Hlog Hlist Hids Hlen Hmode.
  unfold full_scan_list, rear_panel, rear_token in Hmode.
  apply andb_prop in Hmode as [Hrear Hfull].
  destruct d as [i rn ins sc rs cm csl dict]; cbn in Hlog, Hlist; subst.
  unfold set_mode. rewrite Hrear. cbn [negb]. run_method.
  rewrite Hfull. run_method.
  eexists. split; [reflexivity |].
  run_method. flatten_log.
  rewrite (samp_count_scan_list ids Hids) by lia.
  repeat split.
Qed.

Lemma set_mode_scan_list_commands_witness :
  exists d',
    set_mode "scan_scan_list" example_driver
    = (d', Ok (Some "(@101,102,103)")) /\
    _instr d'
    = Some [Write "TRAC:CLE"; Write "INIT:CONT OFF"; Write "TRIG:COUN 1";
            Write "TRIG:SOUR BUS"; Write "SAMP:COUN 3";
            Write "ROUT:SCAN:LSEL NONE"; Write "ROUT:SCAN (@101,102,103)";
            Write "ROUT:SCAN:TSO IMM"; Write "ROUT:SCAN:LSEL INT"] /\
    sample_count_1 d' = Some false /\
    reading_scan_list d' = Some true.
Proof.
  apply (set_mode_scan_list_commands "scan_scan_list" example_driver []
           ["101"; "102"; "103"]).
  - reflexivity.
  - reflexivity.
  - repeat constructor.
  - simpl. lia.
  - reflexivity.
Defined.

(** C4, as the code has it. A request for the whole scan list with an
    empty [channels_scan_list] raises nothing: on an opened driver it sends
    the nine commands of the scan-list path with sample count 1 and the
    empty channel set, returns ["(@)"] and leaves [sample_count_1 = False],
    [reading_scan_list = True]. *)
Theorem set_mode_empty_scan_list
    (mode : string) (d : driver) (log : list io_event) :
  _instr d = Some log ->
  channels_scan_list d = Some EmptyString ->
  full_scan_list mode = true ->
  exists d',
    set_mode mode d = (d', Ok (Some "(@)")) /\
    _instr d'
    = Some (log ++
        [Write "TRAC:CLE";
         Write "INIT:CONT OFF";
         Write "TRIG:COUN 1";
         Write "TRIG:SOUR BUS";
         Write "SAMP:COUN 1";
         Write "ROUT:SCAN:LSEL NONE";
         Write "ROUT:SCAN (@)";
         Write "ROUT:SCAN:TSO IMM";
         Write "ROUT:SCAN:LSEL INT"]) /\
    sample_count_1 d' = Some false /\
    reading_scan_list d' = Some true.
Proof.
  intros Hlog Hlist Hmode.
  unfold full_scan_list, rear_panel, rear_token in Hmode.
  apply andb_prop in Hmode as [Hrear Hfull].
  destruct d as [i rn ins sc rs cm csl dict]; cbn in Hlog, Hlist; subst.
  unfold set_mode. rewrite Hrear. run_method.
  rewrite Hfull. run_method.
  eexists. split; [reflexivity |].
  run_method. flatten_log. repeat split.
Qed.

Lemma set_mode_empty_scan_list_witness :
  exists d',
    set_mode "SCAN_SCAN_LIST" empty_scan_driver = (d', Ok (Some "(@)")) /\
    _instr d'
    = Some [Write "TRAC:CLE"; Write "INIT:CONT OFF"; Write "TRIG:COUN 1";
            Write "TRIG:SOUR BUS"; Write "SAMP:COUN 1";
            Write "ROUT:SCAN:LSEL NONE"; Write "ROUT:SCAN (@)";
            Write "ROUT:SCAN:TSO IMM"; Write "ROUT:SCAN:LSEL INT"] /\
    sample_count_1 d' = Some false /\
    reading_scan_list d' = Some true.
Proof.
  apply (set_mode_empty_scan_list "SCAN_SCAN_LIST" empty_scan_driver []);
    reflexivity.
Defined.

(** C4 as stated fails: with an empty scan list the request for the whole
    scan list does not fail and does send commands. *)
Lemma empty_scan_list_is_not_refused :
  channels_scan_list empty_scan_driver = Some EmptyString /\
  ~ (failed (snd (set_mode "SCAN_SCAN_LIST" empty_scan_driver)) = true /\
     _instr (fst (set_mode "SCAN_SCAN_LIST" empty_scan_driver))
     = _instr empty_scan_driver).
Proof.
  split; [reflexivity |].
  intros [Hfail _]. vm_compute in Hfail. discriminate Hfail.
Qed.

(** C2, as the code has it. For every function with more than one
    assigned channel, the rear-panel request for it on an opened driver
    returns and leaves [sample_count_1 = False] and
    [reading_scan_list = False]: only the whole-scan-list path sets
    [reading_scan_list]. *)
Theorem set_mode_multi_channel_state
    (mode : string) (d : driver) (log : list io_event)
    (dict : gmap string (list channel)) (chans : list channel) :
  _instr d = Some log ->
  modes_channels_dict d = Some dict ->
  rear_panel mode = true ->
  PyStr.contains "SCAN_LIST" (rear_token mode) = false ->
  dict !! rear_token mode = Some chans ->
  (2 <= length chans)%nat ->
  exists d' channels,
    set_mode mode d = (d', Ok (Some channels)) /\
    sample_count_1 d' = Some false /\
    reading_scan_list d' = Some false.
Proof.
  intros Hlog Hdict Hrear Hfull Hkey Hlen.
  unfold rear_panel, rear_token in *.
  destruct d as [i rn ins sc rs cm csl dc]; cbn in Hlog, Hdict; subst.
  unfold set_mode. rewrite Hrear. run_method.
  rewrite Hfull. run_method. rewrite Hkey. run_method.
  pose proof (samp_count_function chans) as Hcount.
  match goal with
  | |- context [Z.eqb ?a 1] => destruct (Z.eqb_spec a 1) as [Heq | Hne]
  end.
  - lia.
  - do 2 eexists. repeat split.
Qed.

Lemma set_mode_multi_channel_state_witness :
  exists d' channels,
    set_mode "SCAN_VOLT:DC" example_driver = (d', Ok (Some channels)) /\
    sample_count_1 d' = Some false /\
    reading_scan_list d' = Some false.
Proof.
  apply (set_mode_multi_channel_state "SCAN_VOLT:DC" example_driver []
           {[ "VOLT:DC" := [ChanInt 101; ChanInt 102];
              "RES" := [ChanInt 105];
              "TEMP" := [] ]}
           [ChanInt 101; ChanInt 102]).
  - reflexivity.
  - reflexivity.
  - reflexivity.
  - reflexivity.
  - vm_compute. reflexivity.
  - simpl. lia.
Defined.

(** C2 as stated fails: after the rear-panel request for a function with
    two channels [reading_scan_list] is [False]. *)
Lemma multi_channel_scan_list_not_active :
  ~ (sample_count_1 (fst (set_mode "SCAN_VOLT:DC" example_driver)) = Some false /\
     reading_scan_list (fst (set_mode "SCAN_VOLT:DC" example_driver)) = Some true).
Proof.
  intros [_ H]. vm_compute in H. discriminate H.
Qed.

(** C3, as the code has it. For every function with no assigned channel,
    the rear-panel request for it raises no configuration error: the sample
    count computed is 1, the single-channel path runs on the empty channel
    set, nine commands are sent and ["(@)"] is returned, with
    [sample_count_1 = True] ([sample_count_1] existing before the call). *)
Theorem set_mode_zero_channels
    (mode : string) (d : driver) (log : list io_event)
    (dict : gmap string (list channel)) (b : bool) :
  _instr d = Some log ->
  modes_channels_dict d = Some dict ->
  sample_count_1 d = Some b ->
  rear_panel mode = true ->
  PyStr.contains "SCAN_LIST" (rear_token mode) = false ->
  dict !! rear_token mode = Some [] ->
  exists d',
    set_mode mode d = (d', Ok (Some "(@)")) /\
    _instr d'
    = Some (log ++
        [Write "TRAC:CLE";
         Write "INIT:CONT OFF";
         Write "TRIG:COUN 1";
         Write "SAMP:COUN 1";
         Write "INIT:CONT ON";
         Write "TRIG:SOUR IMM";
         Write "ROUT:SCAN:LSEL NONE";
         Write "ROUT:CLOS (@)";
         Write ("FUNC '" ++ rear_token mode ++ "'")]) /\
    sample_count_1 d' = Some true /\
    reading_scan_list d' = Some false.
Proof.
  intros Hlog Hdict Hsc Hrear Hfull Hkey.
  unfold rear_panel, rear_token in *.
  destruct d as [i rn ins sc rs cm csl dc]; cbn in Hlog, Hdict, Hsc; subst.
  unfold set_mode. rewrite Hrear. run_method.
  rewrite Hfull. run_method. rewrite Hkey. run_method.
  change (samp_count_of ("(@" ++ PyStr.strip_ends (PyRepr.of_list []) ++ ")") =? 1)%Z
    with true.
  run_method.
  destruct b; run_method; eexists; (split; [reflexivity |]);
    run_method; flatten_log; repeat split.
Qed.

Lemma set_mode_zero_channels_witness :
  exists d',
    set_mode "SCAN_TEMP" example_driver = (d', Ok (Some "(@)")) /\
    _instr d'
    = Some [Write "TRAC:CLE"; Write "INIT:CONT OFF"; Write "TRIG:COUN 1";
            Write "SAMP:COUN 1"; Write "INIT:CONT ON"; Write "TRIG:SOUR IMM";
            Write "ROUT:SCAN:LSEL NONE"; Write "ROUT:CLOS (@)";
            Write "FUNC 'TEMP'"] /\
    sample_count_1 d' = Some true /\
    reading_scan_list d' = Some false.
Proof.
  apply (set_mode_zero_channels "SCAN_TEMP" example_driver []
           {[ "VOLT:DC" := [ChanInt 101; ChanInt 102];
              "RES" := [ChanInt 105];
              "TEMP" := [] ]} false).
  - reflexivity.
  - reflexivity.
  - reflexivity.
  - reflexivity.
  - reflexivity.
  - vm_compute. reflexivity.
Defined.

(** C3 as stated fails: [TEMP] has no channel in the example driver, and
    the rear-panel request for it neither fails nor stays silent. *)
Lemma zero_channels_is_not_refused :
  (exists dict, modes_channels_dict example_driver = Some dict /\
                dict !! "TEMP" = Some []) /\
  ~ (failed (snd (set_mode "SCAN_TEMP" example_driver)) = true /\
     _instr (fst (set_mode "SCAN_TEMP" example_driver))
     = _instr example_driver).
Proof.
  split.
  - eexists. split; [reflexivity |]. vm_compute. reflexivity.
  - intros [Hfail _]. vm_compute in Hfail. discriminate Hfail.
Qed.

(** C5, as the code has it. [set_mode] does not check the function token.
    On an opened driver, a request without the rear-panel marker never
    fails, whatever its token: it sends [INIT:CONT ON] and [FUNC '<MODE>']
    and returns [None].  A rear-panel request whose token is not a key of
    [modes_channels_dict] raises [KeyError], after [TRAC:CLE] and
    [INIT:CONT OFF] were sent. *)
Theorem set_mode_token_not_validated
    (mode : string) (d : driver) (log : list io_event) :
  _instr d = Some log ->
  (rear_panel mode = false ->
   exists d',
     set_mode mode d = (d', Ok None) /\
     _instr d'
     = Some (log ++ [Write "INIT:CONT ON";
                     Write ("FUNC '" ++ PyStr.upper mode ++ "'")])) /\
  (rear_panel mode = true ->
   PyStr.contains "SCAN_LIST" (rear_token mode) = false ->
   forall dict : gmap string (list channel),
     modes_channels_dict d = Some dict ->
     dict !! rear_token mode = None ->
     exists d',
       set_mode mode d = (d', Raise (KeyError (rear_token mode))) /\
       _instr d'
       = Some (log ++ [Write "TRAC:CLE"; Write "INIT:CONT OFF"])).
Proof.
  intros Hlog. unfold rear_panel, rear_token.
  destruct d as [i rn ins sc rs cm csl dc]; cbn in Hlog; subst.
  split.
  - intros Hfront. unfold set_mode. rewrite Hfront. run_method.
    eexists. split; [reflexivity |]. run_method. flatten_log. reflexivity.
  - intros Hrear Hfull dict Hdict Hkey. cbn in Hdict. subst.
    unfold set_mode. rewrite Hrear. run_method.
    rewrite Hfull. run_method. rewrite Hkey. run_method.
    eexists. split; [reflexivity |]. run_method. flatten_log. reflexivity.
Qed.

Lemma set_mode_token_not_validated_witness :
  (exists d',
     set_mode "bogus" example_driver = (d', Ok None) /\
     _instr d' = Some [Write "INIT:CONT ON"; Write "FUNC 'BOGUS'"]) /\
  (exists d',
     set_mode "scan_bogus" example_driver = (d', Raise (KeyError "BOGUS")) /\
     _instr d' = Some [Write "TRAC:CLE"; Write "INIT:CONT OFF"]).
Proof.
  pose proof (set_mode_token_not_validated "bogus" example_driver []
                eq_refl) as [Hfront _].
  pose proof (set_mode_token_not_validated "scan_bogus" example_driver []
                eq_refl) as [_ Hrear].
  split.
  - apply Hfront. reflexivity.
  - apply (Hrear eq_refl eq_refl
             {[ "VOLT:DC" := [ChanInt 101; ChanInt 102];
                "RES" := [ChanInt 105];
                "TEMP" := [] ]} eq_refl).
    vm_compute. reflexivity.
Defined.

(** C5 as stated fails: [BOGUS] is none of the supported modes and none of
    the function tokens, and the request for it does not fail. *)
Lemma unknown_token_is_not_refused :
  ~ In "BOGUS" supported_modes /\
  ~ In "BOGUS" function_tokens /\
  ~ (failed (snd (set_mode "bogus" example_driver)) = true /\
     _instr (fst (set_mode "bogus" example_driver)) = _instr example_driver).
Proof.
  split; [| split].
  - simpl. intros H. repeat destruct H as [H | H]; try discriminate H; exact H.
  - simpl. intros H. repeat destruct H as [H | H]; try discriminate H; exact H.
  - intros [Hfail _]. vm_compute in Hfail. discriminate Hfail.
Qed.

(** C10. [set_mode] returns the channel set it programmed, a string
    ["(@...)"], if and only if the request carries the rear-panel marker,
    and [None] for every request without it.  On an opened driver the
    front-panel request always returns, and the rear-panel one returns
    whenever the attributes it reads exist. *)
Theorem set_mode_return_value (mode : string) (d : driver) :
  (forall d' v,
     set_mode mode d = (d', Ok v) ->
     (rear_panel mode = true <->
      exists body, v = Some ("(@" ++ body ++ ")")%string /\
                   programmed ("(@" ++ body ++ ")") d') /\
     (rear_panel mode = false <-> v = None)) /\
  (forall log,
     _instr d = Some log ->
     (rear_panel mode = false -> snd (set_mode mode d) = Ok None) /\
     (rear_panel mode = true -> rear_returns mode d ->
      exists body, snd (set_mode mode d) = Ok (Some ("(@" ++ body ++ ")")%string))).
Proof.
  unfold rear_returns, rear_panel, rear_token.
  destruct d as [i rn ins sc rs cm csl dc].
  split.
  - intros d' v. unfold set_mode.
    destruct (PyStr.contains "SCAN" (PyStr.upper mode)) eqn:Hrear.
    + (* rear panel *)
      destruct i as [log |]; run_method; [| discriminate].
      destruct (PyStr.contains "SCAN_LIST" (PyStr.drop 5 (PyStr.upper mode))).
      * destruct csl as [scan_list |]; run_method; [| discriminate].
        intros H; inversion H; subst; clear H.
        split; [split; [intros _ | reflexivity] | split; discriminate].
        exists scan_list. split; [reflexivity |].
        eexists. split; [reflexivity |]. flatten_log. left. in_log.
      * destruct dc as [dict |]; run_method; [| discriminate].
        destruct (dict !! PyStr.drop 5 (PyStr.upper mode)) as [chans |];
          run_method; [| discriminate].
        match goal with
        | |- context [Z.eqb ?a 1] => destruct (Z.eqb a 1)
        end.
        -- destruct sc as [b |]; run_method; [| discriminate].
           destruct b; run_method;
             intros H; inversion H; subst; clear H;
             (split; [split; [intros _ | reflexivity] | split; discriminate]);
             eexists; (split; [reflexivity |]);
             eexists; (split; [reflexivity |]); flatten_log; right; in_log.
        -- run_method. intros H; inversion H; subst; clear H.
           split; [split; [intros _ | reflexivity] | split; discriminate].
           eexists. split; [reflexivity |].
           eexists. split; [reflexivity |]. flatten_log. left. in_log.
    + (* front panel *)
      destruct i as [log |]; run_method; [| discriminate].
      intros H; inversion H; subst; clear H.
      split; split; try discriminate; try reflexivity.
      intros [body [Hbody _]]. discriminate Hbody.
  - intros log Hlog. cbn in Hlog. subst. unfold set_mode. split.
    + intros Hfront. rewrite Hfront. run_method. reflexivity.
    + intros Hrear. rewrite Hrear. run_method.
      destruct (PyStr.contains "SCAN_LIST" (PyStr.drop 5 (PyStr.upper mode))).
      * intros [scan_list Hlist]. cbn in Hlist. subst. run_method.
        eexists. reflexivity.
      * intros (dict & chans & b & Hdict & Hkey & Hsc).
        cbn in Hdict, Hsc. subst. run_method. rewrite Hkey. run_method.
        match goal with
        | |- context [Z.eqb ?a 1] => destruct (Z.eqb a 1)
        end.
        -- run_method. destruct b; run_method; eexists; reflexivity.
        -- run_method. eexists. reflexivity.
Qed.

Lemma set_mode_return_value_witness :
  snd (set_mode "VOLT:DC" example_driver) = Ok None /\
  exists body,
    snd (set_mode "scan_res" example_driver)
    = Ok (Some ("(@" ++ body ++ ")")%string).
Proof.
  pose proof (set_mode_return_value "VOLT:DC" example_driver) as [_ Hfront].
  pose proof (set_mode_return_value "scan_res" example_driver) as [_ Hrear].
  split.
  - apply (Hfront [] eq_refl). reflexivity.
  - apply (Hrear [] eq_refl); [reflexivity |].
    exists {[ "VOLT:DC" := [ChanInt 101; ChanInt 102];
              "RES" := [ChanInt 105];
              "TEMP" := [] ]}, [ChanInt 105], false.
    repeat split.
Defined.

(** ** [data]: what is sent, what is decoded *)

(** C8. On an opened driver, [data] sends [INIT], [*TRG] and the query
    [FETCH?], in this order, when [sample_count_1] is [False], and only
    the query [FETCH?] when it is [True], whatever the reply and whether
    or not the reply then decodes. *)
Theorem data_commands
    (reply : string) (d : driver) (log : list io_event) (single : bool) :
  _instr d = Some log ->
  sample_count_1 d = Some single ->
  _instr (fst (data reply d))
  = Some (log ++ (if single
                  then [Query "FETCH?"]
                  else [Write "INIT"; Write "*TRG"; Query "FETCH?"])).
Proof.
  intros Hlog Hsingle.
  destruct d as [i rn ins sc rs cm csl dc]; cbn in Hlog, Hsingle; subst.
  unfold data. destruct single; run_method;
    destruct (decode reply _); run_method; flatten_log; reflexivity.
Qed.

Lemma data_commands_witness :
  _instr (fst (data "+1.5VDC,+0.01SEC,+1RDNG#" example_driver))
  = Some [Write "INIT"; Write "*TRG"; Query "FETCH?"].
Proof.
  apply (data_commands "+1.5VDC,+0.01SEC,+1RDNG#" example_driver [] false);
    reflexivity.
Defined.

(** C7. The reply of two readings, each with its time stamp and reading
    number, decodes outside single-sample mode to the two values and the
    two time stamps; the reading numbers are dropped. *)
Theorem decode_two_readings :
  decode "+1.23456E-03VDC,+0.01SEC,+1RDNG#,+2.00000E+00VDC,+0.02SEC,+2RDNG#"
    false
  = Ok ([0.00123456; 2]%float, [0.01; 0.02]%float).
Proof. vm_compute. reflexivity. Qed.

(** The first value decoded from the two-reading reply is the binary64 number
    [m * 2^-62] with [m = 5693403090909716], and no binary64 number is
    nearer to [123456 / 10^8]: the distance is at most half a unit in the
    last place. *)
Remark first_reading_nearest :
  SF2Prim (S754_finite false 5693403090909716 (-62)) = 0.00123456%float /\
  (2 * Z.abs (5693403090909716 * 10 ^ 8 - 123456 * 2 ^ 62) <= 10 ^ 8)%Z.
Proof. split; [vm_compute; reflexivity | vm_compute; discriminate]. Qed.

(** C1: what the code does on the claim's input.  In single-sample mode
    the reply ["-5.0000E-01ADC"], one token with no time stamp after it,
    is not decoded: the loop that strips the units reads
    [list_times[0]] of an empty list and [data] raises [IndexError].  The
    same reading followed by a time stamp decodes to [[-0.5]] and
    [[0.0]]. *)
Theorem data_single_token_raises :
  decode "-5.0000E-01ADC" true = Raise IndexError /\
  snd (data "-5.0000E-01ADC" (fst (set_mode "VOLT:DC" example_driver)))
  = Raise IndexError /\
  decode "-5.0000E-01ADC,+0.01SEC,+1RDNG#" true
  = Ok ([(-0.5)%float], [0%float]).
Proof. repeat split; vm_compute; reflexivity. Qed.

(** *** Replies with one token too many *)

Section MissingTimeStamp.

Lemma stride3_triple {A : Type} (a b c : A) (l : list A) :
  stride3 0 (a :: b :: c :: l) = a :: stride3 0 l /\
  stride3 1 (a :: b :: c :: l) = b :: stride3 1 l.
Proof. split; reflexivity. Qed.

(** Of [3 * k + 1] tokens, [k + 1] are measurements and [k] are time
    stamps. *)
Lemma stride3_lengths {A : Type} (k : nat) :
  forall l : list A,
    length l = (3 * k + 1)%nat ->
    length (stride3 0 l) = S k /\ length (stride3 1 l) = k.
Proof.
  induction k as [| k IH]; intros l Hlen.
  - destruct l as [| a l]; cbn [length] in Hlen; [lia |].
    destruct l as [| b l]; cbn [length] in Hlen; [| lia].
    split; reflexivity.
  - destruct l as [| a l]; cbn [length] in Hlen; [lia |].
    destruct l as [| b l]; cbn [length] in Hlen; [lia |].
    destruct l as [| c l]; cbn [length] in Hlen; [lia |].
    destruct (stride3_triple a b c l) as [H0 H1]. rewrite H0, H1.
    cbn [length].
    destruct (IH l) as [IH0 IH1]; [lia |].
    rewrite IH0, IH1. split; reflexivity.
Qed.

Lemma strip_units_loop_raises (tok : string) (range : list nat) (e : exn) :
  strip_units_loop tok range = Raise e -> e = IndexError.
Proof.
  induction range as [| l rest IH]; cbn [strip_units_loop].
  - discriminate.
  - destruct (PyStr.from_end (l + 1) tok) as [c |].
    + destruct (PyStr.isdigit c); [discriminate | exact IH].
    + intros H. now inversion H.
Qed.

Lemma get_in_range (s : string) :
  forall n : nat, (n < String.length s)%nat -> exists c, String.get n s = Some c.
Proof.
  induction s as [| a s IH]; intros n Hn; cbn [String.length] in Hn; [lia |].
  destruct n as [| n]; cbn [String.get]; [eauto |].
  apply IH. lia.
Qed.

(** The characters the inner loop reads are all there: stripping the units
    of a token never raises. *)
Lemma strip_units_loop_total (tok : string) (range : list nat) :
  Forall (fun l => (l < String.length tok)%nat) range ->
  exists stripped, strip_units_loop tok range = Ok stripped.
Proof.
  induction 1 as [| l rest Hl Hrest IH]; cbn [strip_units_loop]; [eauto |].
  unfold PyStr.from_end.
  destruct (Nat.leb_spec (l + 1) (String.length tok)) as [_ | Hgt]; [| lia].
  destruct (get_in_range tok (String.length tok - (l + 1))) as [c Hc]; [lia |].
  rewrite Hc. destruct (PyStr.isdigit c); eauto.
Qed.

Lemma strip_units_total (tok : string) :
  exists stripped, strip_units tok = Ok stripped.
Proof.
  apply strip_units_loop_total, Forall_forall.
  intros l Hl. apply list_elem_of_In, in_seq in Hl. lia.
Qed.

(** The only exception of the extraction loop is [IndexError]. *)
Lemma extract_loop_raises (ms ts : list string) (range : list nat) :
  forall (acc : string * string) (e : exn),
    extract_loop ms ts range acc = Raise e -> e = IndexError.
Proof.
  induction range as [| j rest IH]; intros [sm st] e;
    cbn [extract_loop].
  - discriminate.
  - unfold list_item, strip_units.
    destruct (negb (j =? 0)%nat);
      (destruct (nth_error ms j) as [m |]; cbn [rbind];
         [| intros H; now inversion H]);
      (destruct (strip_units_loop m _) as [m' |] eqn:Hm; cbn [rbind];
         [| intros H; inversion H; subst;
            now apply strip_units_loop_raises in Hm]);
      (destruct (nth_error ts j) as [t |]; cbn [rbind];
         [| intros H; now inversion H]);
      (destruct (strip_units_loop t _) as [t' |] eqn:Ht; cbn [rbind];
         [| intros H; inversion H; subst;
            now apply strip_units_loop_raises in Ht]);
      apply IH.
Qed.

(** An index of the loop with no time stamp stops the loop. *)
Lemma extract_loop_missing_time (ms ts : list string) (j : nat) :
  nth_error ts j = None ->
  forall (range : list nat) (acc : string * string),
    In j range ->
    exists e, extract_loop ms ts range acc = Raise e.
Proof.
  intros Hnone.
  induction range as [| j0 rest IH]; intros [sm st] Hin;
    [destruct Hin |].
  cbn [extract_loop]. unfold list_item.
  destruct (negb (j0 =? 0)%nat);
    (destruct (nth_error ms j0) as [m |]; cbn [rbind]; [| eauto]);
    (destruct (strip_units m) as [m' |]; cbn [rbind]; [| eauto]);
    (destruct Hin as [-> | Hin];
     [ rewrite Hnone; cbn [rbind]; eauto
     | destruct (nth_error ts j0) as [t |]; cbn [rbind]; [| eauto];
       destruct (strip_units t) as [t' |]; cbn [rbind]; [| eauto];
       apply IH; exact Hin ]).
Qed.

End MissingTimeStamp.

(** C9. A reply whose number of comma-separated tokens is 1 modulo 3 has
    one measurement more than time stamps: the extraction loop reads a
    time stamp that is not there and [data] raises [IndexError], in
    single-sample mode or not, before any string is converted to a
    float. *)
Theorem decode_missing_time_stamp (raw : string) (single : bool) :
  (length (PyStr.split "," raw) mod 3 = 1)%nat ->
  decode raw single = Raise IndexError.
Proof.
  intros Hmod.
  set (tokens := PyStr.split "," raw) in *.
  pose proof (Nat.div_mod_eq (length tokens) 3) as Hdiv.
  set (k := (length tokens / 3)%nat) in *.
  destruct (stride3_lengths k tokens) as [Hms Hts]; [lia |].
  unfold decode. fold tokens. rewrite Hms.
  destruct (extract_loop_missing_time (stride3 0 tokens) (stride3 1 tokens) k)
    with (range := seq 0 (S k)) (acc := (EmptyString, EmptyString))
    as [e He].
  - apply nth_error_None. lia.
  - apply in_seq. lia.
  - rewrite He. apply extract_loop_raises in He. subst. reflexivity.
Qed.

Lemma decode_missing_time_stamp_witness :
  decode "+1.5VDC,+0.01SEC,+1RDNG#,+2.5VDC" false = Raise IndexError.
Proof.
  apply (decode_missing_time_stamp "+1.5VDC,+0.01SEC,+1RDNG#,+2.5VDC" false).
  reflexivity.
Defined.

(** * Further properties of the driver *)

(** ** Stripping the units of a token *)

Section StripUnits.

Local Open Scope string_scope.

Lemma append_empty_r (s : string) : s ++ "" = s.
Proof. induction s as [| a s IH]; simpl; [reflexivity | now rewrite IH]. Qed.

Lemma string_last (n : nat) :
  forall s : string,
    String.length s = S n ->
    exists p c, s = p ++ String c "" /\ String.length p = n.
Proof.
  induction n as [| n IH]; intros s Hlen.
  - destruct s as [| a [| b s]]; try discriminate Hlen.
    exists "", a. split; reflexivity.
  - destruct s as [| a s]; [discriminate Hlen |].
    cbn [String.length] in Hlen.
    destruct (IH s) as (p & c & -> & Hp); [lia |].
    exists (String a p), c. split; [reflexivity | simpl; now rewrite Hp].
Qed.

Lemma get_append_mid (p q : string) (c : ascii) :
  String.get (String.length p) (p ++ String c q) = Some c.
Proof. induction p as [| a p IH]; simpl; [reflexivity | exact IH]. Qed.

Lemma has_digit_append (a b : string) :
  has_digit (a ++ b) = has_digit a || has_digit b.
Proof.
  induction a as [| x a IH]; simpl; [reflexivity |].
  rewrite IH. now rewrite orb_assoc.
Qed.

Lemma keep_append_no_digit (p q : string) :
  has_digit q = false -> keep_to_last_digit (p ++ q) = keep_to_last_digit p.
Proof.
  intros Hq. induction p as [| a p IH]; simpl.
  - destruct q as [| b q]; [reflexivity |].
    simpl in *. apply orb_false_elim in Hq as [Hb Hq]. now rewrite Hq, Hb.
  - rewrite has_digit_append, Hq, orb_false_r, IH. reflexivity.
Qed.

Lemma keep_ends_in_digit (p : string) (c : ascii) :
  PyStr.isdigit c = true ->
  keep_to_last_digit (p ++ String c "") = p ++ String c "".
Proof.
  intros Hc. induction p as [| a p IH]; simpl.
  - now rewrite Hc.
  - rewrite has_digit_append. simpl. rewrite Hc, orb_true_r, IH. reflexivity.
Qed.

Lemma strip_units_loop_keeps (n : nat) :
  forall p q : string,
    String.length p = n ->
    has_digit q = false ->
    strip_units_loop (p ++ q) (seq (String.length q) n)
    = Ok (keep_to_last_digit p).
Proof.
  induction n as [| n IH]; intros p q Hp Hq.
  - destruct p; [reflexivity | discriminate Hp].
  - destruct (string_last n p Hp) as (p' & c & -> & Hp').
    cbn [seq strip_units_loop]. unfold PyStr.from_end.
    rewrite append_assoc. cbn [append].
    rewrite length_append. cbn [String.length].
    destruct (Nat.leb_spec (String.length q + 1)
                (String.length p' + S (String.length q))) as [_ | Hgt];
      [| lia].
    replace (String.length p' + S (String.length q) - (String.length q + 1))%nat
      with (String.length p') by lia.
    rewrite get_append_mid.
    destruct (PyStr.isdigit c) eqn:Hc.
    + rewrite (keep_ends_in_digit p' c Hc). f_equal.
      destruct (String.length q =? 0)%nat eqn:Hzero.
      * apply Nat.eqb_eq in Hzero. destruct q; [| discriminate Hzero].
        reflexivity.
      * unfold PyStr.drop_last.
        replace (p' ++ String c q) with ((p' ++ String c "") ++ q)
          by (rewrite append_assoc; reflexivity).
        rewrite length_append.
        replace (String.length (p' ++ String c "") + String.length q
                 - String.length q)%nat
          with (String.length (p' ++ String c "")) by lia.
        apply substring_append_left.
    + rewrite (keep_append_no_digit p' (String c "")) by (simpl; now rewrite Hc).
      apply (IH p' (String c q) Hp'). simpl. now rewrite Hc, Hq.
Qed.

(** The loop that strips the units computes [keep_to_last_digit]. *)
Lemma strip_units_keeps (tok : string) :
  strip_units tok = Ok (keep_to_last_digit tok).
Proof.
  unfold strip_units.
  pose proof (strip_units_loop_keeps (String.length tok) tok "" eq_refl eq_refl)
    as H.
  rewrite append_empty_r in H. exact H.
Qed.

Lemma keep_is_prefix (s : string) :
  exists suffix, s = keep_to_last_digit s ++ suffix /\ has_digit suffix = false.
Proof.
  induction s as [| a s (suffix & Hs & Hsuffix)]; simpl.
  - exists "". split; reflexivity.
  - destruct (has_digit s) eqn:Hd.
    + exists suffix. split; [simpl; now rewrite <- Hs | exact Hsuffix].
    + destruct (PyStr.isdigit a) eqn:Ha.
      * exists s. split; [reflexivity | exact Hd].
      * exists (String a s). split; [reflexivity | simpl; now rewrite Ha, Hd].
Qed.

Lemma keep_last_is_digit (s : string) :
  if has_digit s
  then exists p c, keep_to_last_digit s = p ++ String c "" /\
                   PyStr.isdigit c = true
  else keep_to_last_digit s = "".
Proof.
  induction s as [| a s IH]; simpl; [reflexivity |].
  destruct (has_digit s) eqn:Hd.
  - rewrite orb_true_r. destruct IH as (p & c & -> & Hc).
    exists (String a p), c. split; [reflexivity | exact Hc].
  - rewrite orb_false_r. destruct (PyStr.isdigit a) eqn:Ha.
    + exists "", a. split; [reflexivity | exact Ha].
    + reflexivity.
Qed.

End StripUnits.

(** X1. Stripping the units of a token never raises and keeps the token up
    to its last digit: what is cut off has no digit, and what is kept ends
    in a digit, or is empty when the token has no digit at all. *)
Theorem strip_units_spec (tok : string) :
  exists kept suffix,
    strip_units tok = Ok kept /\
    tok = (kept ++ suffix)%string /\
    has_digit suffix = false /\
    (if has_digit tok
     then exists p c, kept = (p ++ String c "")%string /\ PyStr.isdigit c = true
     else kept = EmptyString).
Proof.
  destruct (keep_is_prefix tok) as (suffix & Htok & Hsuffix).
  exists (keep_to_last_digit tok), suffix.
  split; [apply strip_units_keeps |].
  split; [exact Htok |]. split; [exact Hsuffix |].
  apply keep_last_is_digit.
Qed.

(** ** The reply, token by token *)

Section TokenByToken.

Local Open Scope string_scope.

Lemma split_not_nil (c : ascii) (s : string) : PyStr.split c s <> [].
Proof.
  induction s as [| a s IH]; cbn [PyStr.split]; [discriminate |].
  destruct (Ascii.eqb a c); [discriminate |].
  destruct (PyStr.split c s); discriminate.
Qed.

(** No token of a split holds the separator. *)
Lemma split_tokens_free (c : ascii) (s : string) :
  Forall (fun t => PyStr.count c t = 0%nat) (PyStr.split c s).
Proof.
  induction s as [| a s IH]; cbn [PyStr.split].
  - repeat constructor.
  - destruct (Ascii.eqb a c) eqn:Hac.
    + constructor; [reflexivity | exact IH].
    + destruct (PyStr.split c s) as [| t ts]; inversion IH; subst.
      * repeat constructor. simpl. now rewrite Hac.
      * constructor; [| assumption]. simpl. rewrite Hac. assumption.
Qed.

Lemma split_free (c : ascii) (s : string) :
  PyStr.count c s = 0%nat -> PyStr.split c s = [s].
Proof.
  induction s as [| a s IH]; cbn [PyStr.split PyStr.count]; [reflexivity |].
  destruct (Ascii.eqb a c); [discriminate |].
  intros H. rewrite IH by exact H. reflexivity.
Qed.

Lemma split_append_sep (c : ascii) (x rest : string) :
  PyStr.count c x = 0%nat ->
  PyStr.split c (x ++ String c rest) = x :: PyStr.split c rest.
Proof.
  induction x as [| a x IH]; cbn [PyStr.split PyStr.count append].
  - intros _. now rewrite Ascii.eqb_refl.
  - destruct (Ascii.eqb a c); [discriminate |].
    intros H. rewrite IH by exact H. reflexivity.
Qed.

(** Splitting what was joined gives the items back. *)
Lemma split_join (c : ascii) (l : list string) :
  l <> [] ->
  Forall (fun t => PyStr.count c t = 0%nat) l ->
  PyStr.split c (PyStr.join (String c "") l) = l.
Proof.
  intros Hnil Hfree. induction Hfree as [| x l Hx Hl IH]; [congruence |].
  destruct l as [| y l].
  - simpl. apply split_free, Hx.
  - rewrite join_cons2. cbn [append].
    rewrite split_append_sep by exact Hx.
    rewrite IH by discriminate. reflexivity.
Qed.

Lemma count_keep (c : ascii) (s : string) :
  PyStr.count c s = 0%nat -> PyStr.count c (keep_to_last_digit s) = 0%nat.
Proof.
  destruct (keep_is_prefix s) as (suffix & Hs & _).
  intros H. rewrite Hs, count_append in H. lia.
Qed.

Lemma join_snoc (sep x : string) (l : list string) :
  PyStr.join sep (l ++ [x])
  = match l with
    | [] => x
    | _ => PyStr.join sep l ++ sep ++ x
    end.
Proof.
  induction l as [| a l IH]; [reflexivity |].
  destruct l as [| b l]; [reflexivity |].
  cbn [app] in *.
  rewrite (join_cons2 sep a b (l ++ [x])), IH, (join_cons2 sep a b l).
  now rewrite !append_assoc.
Qed.

Lemma firstn_snoc {A : Type} (l : list A) :
  forall (i : nat) (x : A),
    nth_error l i = Some x -> firstn (S i) l = (firstn i l ++ [x])%list.
Proof.
  induction l as [| a l IH]; intros [| i] x H; try discriminate H.
  - inversion H. reflexivity.
  - cbn [nth_error] in H. cbn [firstn app]. now rewrite (IH i x H).
Qed.

(** One turn of the extraction loop on one of the two strings. *)
Lemma joined_step (l : list string) (i : nat) (x : string) :
  nth_error l i = Some x ->
  (if negb (i =? 0)%nat
   then PyStr.join "," (map keep_to_last_digit (firstn i l)) ++ ","
   else PyStr.join "," (map keep_to_last_digit (firstn i l)))
  ++ keep_to_last_digit x
  = PyStr.join "," (map keep_to_last_digit (firstn (S i) l)).
Proof.
  intros Hx. rewrite (firstn_snoc l i x Hx), map_app. cbn [map].
  rewrite join_snoc.
  destruct i as [| i]; [reflexivity |].
  destruct l as [| a l]; [discriminate Hx |].
  cbn [firstn map negb Nat.eqb]. now rewrite append_assoc.
Qed.

(** The extraction loop builds the two joined strings. *)
Lemma extract_loop_joins (ms ts : list string) :
  (length ms <= length ts)%nat ->
  forall k i : nat,
    (i + k)%nat = length ms ->
    extract_loop ms ts (seq i k)
      (PyStr.join "," (map keep_to_last_digit (firstn i ms)),
       PyStr.join "," (map keep_to_last_digit (firstn i ts)))
    = Ok (PyStr.join "," (map keep_to_last_digit ms),
          PyStr.join "," (map keep_to_last_digit (firstn (length ms) ts))).
Proof.
  intros Hlen. induction k as [| k IH]; intros i Hik.
  - replace i with (length ms) by lia. rewrite firstn_all. reflexivity.
  - cbn [seq extract_loop]. unfold list_item.
    destruct (nth_error ms i) as [m |] eqn:Hm;
      [| apply nth_error_None in Hm; lia].
    destruct (nth_error ts i) as [t |] eqn:Ht;
      [| apply nth_error_None in Ht; lia].
    pose proof (joined_step ms i m Hm) as Hsm.
    pose proof (joined_step ts i t Ht) as Hst.
    destruct (negb (i =? 0)%nat); cbn [rbind];
      rewrite !strip_units_keeps; cbn [rbind];
      rewrite Hsm, Hst; apply IH; lia.
Qed.

Lemma stride3_lengths_even {A : Type} (k : nat) :
  forall (r : nat) (l : list A),
    (r = 0 \/ r = 2)%nat ->
    length l = (3 * k + r)%nat ->
    length (stride3 0 l) = length (stride3 1 l) /\
    (r = 2%nat -> stride3 0 l <> []).
Proof.
  induction k as [| k IH]; intros r l Hr Hlen.
  - destruct Hr as [-> | ->].
    + destruct l; [| discriminate Hlen]. split; [reflexivity | discriminate].
    + destruct l as [| a [| b [| c l]]]; try discriminate Hlen.
      split; [reflexivity | discriminate].
  - destruct l as [| a l]; cbn [length] in Hlen; [lia |].
    destruct l as [| b l]; cbn [length] in Hlen; [lia |].
    destruct l as [| c l]; cbn [length] in Hlen; [lia |].
    destruct (stride3_triple a b c l) as [H0 H1]. rewrite H0, H1.
    cbn [length]. destruct (IH r l Hr) as [IHlen _]; [lia |].
    split; [now rewrite IHlen | discriminate].
Qed.

Lemma np_array_float_length (l : list string) (xs : list float) :
  np_array_float l = Ok xs -> length xs = length l.
Proof.
  revert xs. induction l as [| s l IH]; intros xs; cbn [np_array_float].
  - intros H. now inversion H.
  - destruct (PyFloat.of_string s); [| discriminate].
    destruct (np_array_float l) as [ys |]; cbn [rbind]; [| discriminate].
    intros H. inversion H. cbn [length]. now rewrite (IH ys eq_refl).
Qed.

Lemma np_array_float_raises (l : list string) (e : exn) :
  np_array_float l = Raise e -> exists text, e = ValueError text.
Proof.
  induction l as [| s l IH]; cbn [np_array_float]; [discriminate |].
  destruct (PyFloat.of_string s).
  - destruct (np_array_float l); cbn [rbind]; [discriminate |].
    intros H. inversion H; subst. now apply IH.
  - intros H. inversion H. eauto.
Qed.

Lemma np_array_float_bad (l : list string) (s : string) :
  In s l -> PyFloat.of_string s = None ->
  exists text, np_array_float l = Raise (ValueError text).
Proof.
  intros Hin Hs. induction l as [| a l IH]; [destruct Hin |].
  cbn [np_array_float]. destruct (PyFloat.of_string a) eqn:Ha.
  - destruct Hin as [-> | Hin]; [congruence |].
    destruct (IH Hin) as [text ->]. cbn [rbind]. eauto.
  - eauto.
Qed.

End TokenByToken.

(** The loops of [data] against the decoding said token by token. *)
Lemma decode_as_tokens (raw : string) (single : bool) :
  (length (PyStr.split "," raw) mod 3 <> 1)%nat ->
  decode raw single = decode_by_token (PyStr.split "," raw) single.
Proof.
  intros Hmod.
  set (tokens := PyStr.split "," raw) in *.
  pose proof (Nat.div_mod_eq (length tokens) 3) as Hdiv.
  pose proof (Nat.mod_upper_bound (length tokens) 3) as Hlt.
  assert (Hnil : tokens <> []) by apply split_not_nil.
  destruct (stride3_lengths_even (length tokens / 3) (length tokens mod 3) tokens)
    as [Hlen Hms]; [lia | lia |].
  assert (Hms' : stride3 0 tokens <> []).
  { destruct (Nat.eq_dec (length tokens mod 3) 2) as [H2 | H2]; [auto |].
    destruct tokens as [| a tokens']; [congruence | discriminate]. }
  assert (Hfree : forall k, Forall (fun t => PyStr.count "," t = 0%nat)
                              (map keep_to_last_digit (stride3 k tokens))).
  { intros k. pose proof (split_tokens_free "," raw) as H. fold tokens in H.
    clearbody tokens. clear - H. revert k.
    induction H as [| t l Ht Hl IH]; intros k; cbn [stride3 map];
      [constructor |].
    destruct k; [constructor; [now apply count_keep | apply IH] | apply IH]. }
  unfold decode. fold tokens.
  pose proof (extract_loop_joins (stride3 0 tokens) (stride3 1 tokens)) as Hloop.
  specialize (Hloop ltac:(lia) (length (stride3 0 tokens)) 0%nat eq_refl).
  change (firstn 0 (stride3 0 tokens)) with (@nil string) in Hloop.
  change (firstn 0 (stride3 1 tokens)) with (@nil string) in Hloop.
  cbn [map PyStr.join] in Hloop. rewrite Hloop. cbn [rbind].
  rewrite Hlen, firstn_all.
  rewrite !(split_join ","); try apply Hfree.
  - unfold decode_by_token. destruct single; reflexivity.
  - intros H. apply map_eq_nil in H. apply Hms'.
    apply length_zero_iff_nil. apply length_zero_iff_nil in H. lia.
  - intros H. apply map_eq_nil in H. now apply Hms'.
Qed.


(** The same reply with one token more than a multiple of three. *)
Lemma decode_one_token_more (raw : string) (single : bool) :
  (length (PyStr.split "," raw) mod 3 = 1)%nat ->
  decode raw single = Raise IndexError.
Proof.
  intros Hmod.
  set (tokens := PyStr.split "," raw) in *.
  pose proof (Nat.div_mod_eq (length tokens) 3) as Hdiv.
  destruct (stride3_lengths (length tokens / 3) tokens) as [Hms Hts]; [lia |].
  unfold decode. fold tokens. rewrite Hms.
  destruct (extract_loop_missing_time (stride3 0 tokens) (stride3 1 tokens)
              (length tokens / 3))
    with (range := seq 0 (S (length tokens / 3)))
         (acc := (EmptyString, EmptyString)) as [e He].
  - apply nth_error_None. lia.
  - apply in_seq. lia.
  - rewrite He. apply extract_loop_raises in He. subst. reflexivity.
Qed.

(** X2. A reply whose number of tokens is not 1 modulo 3 is decoded token
    by token: the values are the floats of the tokens at 0, 3, 6, ... and,
    outside single-sample mode, the time stamps those of the tokens at
    1, 4, 7, ..., each cut after its last digit; the tokens at 2, 5, 8, ...
    play no part. *)
Theorem decode_token_by_token (raw : string) (single : bool) :
  (length (PyStr.split "," raw) mod 3 <> 1)%nat ->
  decode raw single = decode_by_token (PyStr.split "," raw) single.
Proof. apply decode_as_tokens. Qed.

Lemma decode_token_by_token_witness :
  decode "+1.5VDC,+0.25SEC,+1RDNG#" false
  = decode_by_token ["+1.5VDC"; "+0.25SEC"; "+1RDNG#"] false.
Proof.
  apply (decode_token_by_token "+1.5VDC,+0.25SEC,+1RDNG#" false).
  vm_compute. discriminate.
Defined.

Lemma decode_by_token_raises (tokens : list string) (single : bool) (e : exn) :
  decode_by_token tokens single = Raise e -> exists text, e = ValueError text.
Proof.
  unfold decode_by_token.
  destruct (np_array_float (map keep_to_last_digit (stride3 0 tokens)))
    as [values |] eqn:Hvalues; cbn [rbind].
  - destruct single; cbn [rbind]; [discriminate |].
    destruct (np_array_float (map keep_to_last_digit (stride3 1 tokens)))
      as [times |] eqn:Htimes; cbn [rbind]; [discriminate |].
    intros H. inversion H; subst. now apply np_array_float_raises in Htimes.
  - intros H. inversion H; subst. now apply np_array_float_raises in Hvalues.
Qed.

(** X3. A reply whose number of tokens is not 1 modulo 3 never raises
    [IndexError]: the only exception of its decoding is the [ValueError]
    of a token that does not convert to a float. *)
Theorem decode_raises_value_error (raw : string) (single : bool) (e : exn) :
  (length (PyStr.split "," raw) mod 3 <> 1)%nat ->
  decode raw single = Raise e ->
  exists text, e = ValueError text.
Proof.
  intros Hmod. rewrite (decode_as_tokens raw single Hmod).
  apply decode_by_token_raises.
Qed.

Lemma decode_raises_value_error_witness :
  exists text, ValueError "" = ValueError text.
Proof.
  apply (decode_raises_value_error "ABC,+0.25SEC,+1RDNG#" false (ValueError "")).
  - vm_compute. discriminate.
  - vm_compute. reflexivity.
Defined.

(** X4. The shape of what [data] decodes: one value per measurement token;
    outside single-sample mode as many time stamps as values; in
    single-sample mode the single time stamp [0.0], however many values
    there are. *)
Theorem decode_shape
    (raw : string) (single : bool) (values times : list float) :
  decode raw single = Ok (values, times) ->
  length values = length (stride3 0 (PyStr.split "," raw)) /\
  (if single then times = [0%float] else length times = length values).
Proof.
  intros Hok.
  destruct (Nat.eq_dec (length (PyStr.split "," raw) mod 3) 1) as [H1 | H1].
  { rewrite (decode_one_token_more raw single H1) in Hok. discriminate Hok. }
  rewrite (decode_as_tokens raw single H1) in Hok.
  pose proof (Nat.div_mod_eq (length (PyStr.split "," raw)) 3) as Hdiv.
  pose proof (Nat.mod_upper_bound (length (PyStr.split "," raw)) 3) as Hlt.
  destruct (stride3_lengths_even (length (PyStr.split "," raw) / 3)
              (length (PyStr.split "," raw) mod 3) (PyStr.split "," raw))
    as [Hlen _]; [lia | lia |].
  unfold decode_by_token in Hok.
  destruct (np_array_float (map keep_to_last_digit
                              (stride3 0 (PyStr.split "," raw))))
    as [vs |] eqn:Hvs; cbn [rbind] in Hok; [| discriminate Hok].
  apply np_array_float_length in Hvs. rewrite length_map in Hvs.
  destruct single; cbn [rbind] in Hok.
  - inversion Hok; subst. split; [exact Hvs | reflexivity].
  - destruct (np_array_float (map keep_to_last_digit
                                (stride3 1 (PyStr.split "," raw))))
      as [ts |] eqn:Hts; cbn [rbind] in Hok; [| discriminate Hok].
    apply np_array_float_length in Hts. rewrite length_map in Hts.
    inversion Hok; subst. split; [exact Hvs | lia].
Qed.

Lemma decode_shape_witness :
  length [1.5%float; 2.5%float] = 2%nat /\
  [0%float] = [0%float].
Proof.
  apply (decode_shape "+1.5VDC,+0.1SEC,+1RDNG#,+2.5VDC,+0.2SEC,+2RDNG#" true
           [1.5%float; 2.5%float] [0%float]).
  vm_compute. reflexivity.
Defined.

(** X5. In single-sample mode the time-stamp tokens are cut but never
    converted: two replies with the same measurement tokens decode alike,
    whatever stands in their other tokens. *)
Theorem decode_single_ignores_times (raw1 raw2 : string) :
  (length (PyStr.split "," raw1) mod 3 <> 1)%nat ->
  (length (PyStr.split "," raw2) mod 3 <> 1)%nat ->
  stride3 0 (PyStr.split "," raw1) = stride3 0 (PyStr.split "," raw2) ->
  decode raw1 true = decode raw2 true.
Proof.
  intros H1 H2 Hsame.
  rewrite (decode_as_tokens raw1 true H1), (decode_as_tokens raw2 true H2).
  unfold decode_by_token. now rewrite Hsame.
Qed.

Lemma decode_single_ignores_times_witness :
  decode "+1.5VDC,+0.1SEC,+1RDNG#" true = decode "+1.5VDC,no time" true.
Proof.
  apply (decode_single_ignores_times "+1.5VDC,+0.1SEC,+1RDNG#" "+1.5VDC,no time").
  - vm_compute. discriminate.
  - vm_compute. discriminate.
  - reflexivity.
Defined.

(** X6. A measurement token without any digit makes the whole decoding
    fail with [ValueError]: nothing of the reply is returned. *)
Theorem decode_digitless_measurement
    (raw : string) (single : bool) (tok : string) :
  (length (PyStr.split "," raw) mod 3 <> 1)%nat ->
  In tok (stride3 0 (PyStr.split "," raw)) ->
  has_digit tok = false ->
  exists text, decode raw single = Raise (ValueError text).
Proof.
  intros Hmod Hin Hdigit.
  rewrite (decode_as_tokens raw single Hmod). unfold decode_by_token.
  destruct (np_array_float_bad
              (map keep_to_last_digit (stride3 0 (PyStr.split "," raw)))
              (keep_to_last_digit tok)) as [text ->].
  - apply in_map, Hin.
  - pose proof (keep_last_is_digit tok) as H. rewrite Hdigit in H.
    rewrite H. reflexivity.
  - cbn [rbind]. eauto.
Qed.

Lemma decode_digitless_measurement_witness :
  exists text,
    decode "+1.5VDC,+0.1SEC,+1RDNG#,ABC,+0.2SEC,+2RDNG#" false
    = Raise (ValueError text).
Proof.
  apply (decode_digitless_measurement
           "+1.5VDC,+0.1SEC,+1RDNG#,ABC,+0.2SEC,+2RDNG#" false "ABC").
  - vm_compute. discriminate.
  - vm_compute. right. left. reflexivity.
  - reflexivity.
Defined.

(** ** How a request is read *)

Section ReadingTheRequest.

Local Open Scope string_scope.

Lemma upper_ascii_idempotent (c : ascii) :
  PyStr.upper_ascii (PyStr.upper_ascii c) = PyStr.upper_ascii c.
Proof.
  destruct c as [[] [] [] [] [] [] [] []]; vm_compute; reflexivity.
Qed.

Lemma upper_idempotent (s : string) : PyStr.upper (PyStr.upper s) = PyStr.upper s.
Proof.
  induction s as [| c s IH]; simpl; [reflexivity |].
  now rewrite upper_ascii_idempotent, IH.
Qed.




Lemma drop_append (a b : string) : PyStr.drop (String.length a) (a ++ b) = b.
Proof. induction a as [| c a IH]; simpl; [now destruct b | exact IH]. Qed.

Lemma upper_length (s : string) : String.length (PyStr.upper s) = String.length s.
Proof. induction s as [| c s IH]; simpl; [reflexivity | now rewrite IH]. Qed.

End ReadingTheRequest.

(** X7. The letter case of a request does not matter: [set_mode] on the
    upper-cased request is [set_mode] on the request. *)
Theorem set_mode_case_insensitive (mode : string) (d : driver) :
  set_mode (PyStr.upper mode) d = set_mode mode d.
Proof. unfold set_mode. now rewrite upper_idempotent. Qed.



(** ** The sample count of the function-filtered path *)

Section SampleCount.

Local Open Scope string_scope.

Lemma string_of_uint_free (c : ascii) (d : Decimal.uint) :
  PyStr.isdigit c = false -> PyStr.count c (NilEmpty.string_of_uint d) = 0%nat.
Proof.
  intros Hc.
  induction d as [| d IH | d IH | d IH | d IH | d IH | d IH | d IH | d IH
                  | d IH | d IH]; cbn [NilEmpty.string_of_uint PyStr.count];
    [reflexivity | ..];
    (destruct (Ascii.eqb _ c) eqn:Heq;
     [apply Ascii.eqb_eq in Heq; subst c; discriminate Hc | exact IH]).
Qed.

(** The decimal writing of an integer has no comma. *)
Lemma of_int_comma_free (n : Z) : PyStr.count "," (PyStr.of_int n) = 0%nat.
Proof.
  unfold PyStr.of_int, NilZero.string_of_int, NilZero.string_of_uint.
  destruct (Z.to_int n) as [d | d].
  - destruct d; try (apply string_of_uint_free; reflexivity); reflexivity.
  - cbn [PyStr.count]. cbn [Ascii.eqb Bool.eqb].
    destruct d; try (apply string_of_uint_free; reflexivity); reflexivity.
Qed.

Lemma count_join_channels (reprs : list string) :
  reprs <> [] ->
  PyStr.count "," (PyStr.join ", " reprs)
  = (length reprs - 1 + list_sum (map (PyStr.count ",") reprs))%nat.
Proof.
  intros Hnil. induction reprs as [| x l IH]; [congruence |].
  destruct l as [| y l].
  - simpl. lia.
  - rewrite join_cons2, !count_append, IH by discriminate.
    cbn [length map list_sum PyStr.count Ascii.eqb Bool.eqb]. simpl. lia.
Qed.

(** The sample count is the number of channels plus the commas inside
    their [repr]s. *)
Lemma samp_count_channels (chans : list channel) :
  chans <> [] ->
  samp_count_of ("(@" ++ PyStr.strip_ends (PyRepr.of_list chans) ++ ")")
  = Z.of_nat (length chans + commas_inside chans).
Proof.
  intros Hnil. unfold samp_count_of, commas_inside.
  rewrite strip_ends_of_list. cbn [append PyStr.count Ascii.eqb Bool.eqb].
  rewrite count_append, count_join_channels, length_map, map_map.
  - destruct chans; [congruence |]. cbn [length PyStr.count]. simpl. lia.
  - destruct chans; [congruence | discriminate].
Qed.

Lemma commas_inside_ints (ns : list Z) : commas_inside (map ChanInt ns) = 0%nat.
Proof.
  unfold commas_inside. induction ns as [| n ns IH]; [reflexivity |].
  cbn [map list_sum PyRepr.of_channel]. rewrite of_int_comma_free. exact IH.
Qed.

End SampleCount.

(** ** What [set_mode] does to the driver *)

(** Goes through the paths of [set_mode] on a driver given field by
    field. *)
Ltac case_set_mode :=
  unfold set_mode;
  repeat (run_method;
          match goal with
          | |- context [if PyStr.contains ?a ?b then _ else _] =>
              destruct (PyStr.contains a b) eqn:?
          | |- context [match ?dict !! ?k with Some _ => _ | None => _ end] =>
              destruct (dict !! k) eqn:?
          | |- context [if Z.eqb ?a ?b then _ else _] =>
              destruct (Z.eqb a b) eqn:?
          | |- context [match ?o with Some _ => _ | None => _ end] =>
              is_var o; destruct o
          | |- context [if ?b then _ else _] => is_var b; destruct b
          end);
  run_method.

(** X9. [set_mode] never touches what the plugin configured (resource name,
    instrument, scan list, table of channels); on an opened driver it only
    appends write commands to what was sent, never a query; on a driver
    whose session was not opened it raises [AttributeError] and leaves the
    driver as it was. *)
Theorem set_mode_frame (mode : string) (d : driver) :
  same_configuration d (fst (set_mode mode d)) /\
  (forall log,
     _instr d = Some log ->
     exists cmds,
       _instr (fst (set_mode mode d)) = Some (log ++ cmds) /\
       forallb is_write cmds = true) /\
  (_instr d = None -> set_mode mode d = (d, Raise (AttributeError "write"))).
Proof.
  destruct d as [i rn ins sc rs cm csl dc]. unfold same_configuration.
  split; [| split].
  - case_set_mode; repeat split.
  - intros log Hlog. cbn in Hlog. subst.
    case_set_mode; flatten_log; eexists; (split; [reflexivity |]); reflexivity.
  - intros Hlog. cbn in Hlog. subst. case_set_mode; reflexivity.
Qed.

Lemma set_mode_frame_witness :
  set_mode "scan_volt:dc" (init "ASRL1::INSTR")
  = (init "ASRL1::INSTR", Raise (AttributeError "write")).
Proof.
  apply (set_mode_frame "scan_volt:dc" (init "ASRL1::INSTR")). reflexivity.
Defined.

(** X10. A front-panel request on an opened driver sets
    [sample_count_1 = True] and [reading_scan_list = False] and leaves
    [current_mode] as it was: the function selected on the front panel is
    not recorded. *)
Theorem set_mode_front_panel_state
    (mode : string) (d : driver) (log : list io_event) :
  _instr d = Some log ->
  rear_panel mode = false ->
  exists d',
    set_mode mode d = (d', Ok None) /\
    sample_count_1 d' = Some true /\
    reading_scan_list d' = Some false /\
    current_mode d' = current_mode d.
Proof.
  intros Hlog Hfront. unfold rear_panel in Hfront.
  destruct d as [i rn ins sc rs cm csl dc]; cbn in Hlog; subst.
  unfold set_mode. rewrite Hfront. run_method.
  eexists. split; [reflexivity |]. repeat split.
Qed.

Lemma set_mode_front_panel_state_witness :
  exists d',
    set_mode "volt:dc" example_driver = (d', Ok None) /\
    sample_count_1 d' = Some true /\
    reading_scan_list d' = Some false /\
    current_mode d' = None.
Proof.
  apply (set_mode_front_panel_state "volt:dc" example_driver []); reflexivity.
Defined.

Lemma samp_count_one_channel (c : channel) :
  PyStr.count "," (PyRepr.of_channel c) = 0%nat ->
  (samp_count_of ("(@" ++ PyStr.strip_ends (PyRepr.of_list [c]) ++ ")")%string
   =? 1)%Z = true.
Proof.
  intros Hc. rewrite samp_count_channels by discriminate.
  unfold commas_inside. cbn [map list_sum length]. rewrite Hc. reflexivity.
Qed.

(** X11. The rear-panel request for a function with exactly one channel,
    whose identifier has no comma, closes that channel instead of scanning:
    it sends the nine commands of the single-channel path, returns the
    channel set, and leaves [sample_count_1 = True],
    [reading_scan_list = False] and the token in [current_mode]
    ([sample_count_1] existing before the call). *)
Theorem set_mode_single_channel
    (mode : string) (d : driver) (log : list io_event)
    (dict : gmap string (list channel)) (c : channel) (b : bool) :
  _instr d = Some log ->
  modes_channels_dict d = Some dict ->
  sample_count_1 d = Some b ->
  rear_panel mode = true ->
  PyStr.contains "SCAN_LIST" (rear_token mode) = false ->
  dict !! rear_token mode = Some [c] ->
  PyStr.count "," (PyRepr.of_channel c) = 0%nat ->
  exists d',
    set_mode mode d = (d', Ok (Some ("(@" ++ PyRepr.of_channel c ++ ")")%string)) /\
    _instr d'
    = Some (log ++
        [Write "TRAC:CLE";
         Write "INIT:CONT OFF";
         Write "TRIG:COUN 1";
         Write "SAMP:COUN 1";
         Write "INIT:CONT ON";
         Write "TRIG:SOUR IMM";
         Write "ROUT:SCAN:LSEL NONE";
         Write ("ROUT:CLOS (@" ++ PyRepr.of_channel c ++ ")");
         Write ("FUNC '" ++ rear_token mode ++ "'")]) /\
    sample_count_1 d' = Some true /\
    reading_scan_list d' = Some false /\
    current_mode d' = Some (rear_token mode).
Proof.
  intros Hlog Hdict Hsc Hrear Hfull Hkey Hc.
  unfold rear_panel, rear_token in *.
  destruct d as [i rn ins sc rs cm csl dc]; cbn in Hlog, Hdict, Hsc; subst.
  unfold set_mode. rewrite Hrear. run_method.
  rewrite Hfull. run_method. rewrite Hkey. run_method.
  rewrite (samp_count_one_channel c Hc).
  pose proof (samp_count_one_channel c Hc) as Hone.
  apply Z.eqb_eq in Hone. rewrite Hone.
  rewrite strip_ends_of_list. cbn [map PyStr.join].
  destruct b; run_method; eexists; (split; [reflexivity |]);
    run_method; flatten_log; repeat split.
Qed.

Lemma set_mode_single_channel_witness :
  exists d',
    set_mode "scan_res" example_driver = (d', Ok (Some "(@105)")) /\
    _instr d'
    = Some [Write "TRAC:CLE"; Write "INIT:CONT OFF"; Write "TRIG:COUN 1";
            Write "SAMP:COUN 1"; Write "INIT:CONT ON"; Write "TRIG:SOUR IMM";
            Write "ROUT:SCAN:LSEL NONE"; Write "ROUT:CLOS (@105)";
            Write "FUNC 'RES'"] /\
    sample_count_1 d' = Some true /\
    reading_scan_list d' = Some false /\
    current_mode d' = Some "RES".
Proof.
  apply (set_mode_single_channel "scan_res" example_driver []
           {[ "VOLT:DC" := [ChanInt 101; ChanInt 102];
              "RES" := [ChanInt 105];
              "TEMP" := [] ]} (ChanInt 105) false);
    reflexivity.
Defined.

(** X12. The same request on a driver whose [sample_count_1] was never set
    (no earlier [set_mode], nothing assigned by the plugin) fails on the
    log line that formats [self.sample_count_1]: [AttributeError] is raised
    after the nine commands were sent, and [sample_count_1] still does not
    exist. *)
Theorem set_mode_single_channel_first_call
    (mode : string) (d : driver) (log : list io_event)
    (dict : gmap string (list channel)) (c : channel) :
  _instr d = Some log ->
  modes_channels_dict d = Some dict ->
  sample_count_1 d = None ->
  rear_panel mode = true ->
  PyStr.contains "SCAN_LIST" (rear_token mode) = false ->
  dict !! rear_token mode = Some [c] ->
  PyStr.count "," (PyRepr.of_channel c) = 0%nat ->
  exists d',
    set_mode mode d = (d', Raise (AttributeError "sample_count_1")) /\
    _instr d'
    = Some (log ++
        [Write "TRAC:CLE";
         Write "INIT:CONT OFF";
         Write "TRIG:COUN 1";
         Write "SAMP:COUN 1";
         Write "INIT:CONT ON";
         Write "TRIG:SOUR IMM";
         Write "ROUT:SCAN:LSEL NONE";
         Write ("ROUT:CLOS (@" ++ PyRepr.of_channel c ++ ")");
         Write ("FUNC '" ++ rear_token mode ++ "'")]) /\
    sample_count_1 d' = None /\
    current_mode d' = Some (rear_token mode).
Proof.
  intros Hlog Hdict Hsc Hrear Hfull Hkey Hc.
  unfold rear_panel, rear_token in *.
  destruct d as [i rn ins sc rs cm csl dc]; cbn in Hlog, Hdict, Hsc; subst.
  unfold set_mode. rewrite Hrear. run_method.
  rewrite Hfull. run_method. rewrite Hkey. run_method.
  rewrite (samp_count_one_channel c Hc).
  pose proof (samp_count_one_channel c Hc) as Hone.
  apply Z.eqb_eq in Hone. rewrite Hone.
  rewrite strip_ends_of_list. cbn [map PyStr.join].
  run_method. eexists. split; [reflexivity |].
  run_method. flatten_log. repeat split.
Qed.

Lemma set_mode_single_channel_first_call_witness :
  exists d',
    set_mode "scan_res"
      (Driver (Some []) "ASRL1::INSTR" "" None None None None
         (Some {[ "RES" := [ChanInt 105] ]}))
    = (d', Raise (AttributeError "sample_count_1")) /\
    _instr d'
    = Some [Write "TRAC:CLE"; Write "INIT:CONT OFF"; Write "TRIG:COUN 1";
            Write "SAMP:COUN 1"; Write "INIT:CONT ON"; Write "TRIG:SOUR IMM";
            Write "ROUT:SCAN:LSEL NONE"; Write "ROUT:CLOS (@105)";
            Write "FUNC 'RES'"] /\
    sample_count_1 d' = None /\
    current_mode d' = Some "RES".
Proof.
  apply (set_mode_single_channel_first_call "scan_res"
           (Driver (Some []) "ASRL1::INSTR" "" None None None None
              (Some {[ "RES" := [ChanInt 105] ]}))
           [] {[ "RES" := [ChanInt 105] ]} (ChanInt 105));
    reflexivity.
Defined.

(** X13. The rear-panel request for a function with two channels or more,
    no identifier holding a comma, programs a scan of these channels: it
    sends clear buffer, continuous initiation off, trigger count 1, sample
    count [n], trigger source bus, scan off, the channels separated by a
    comma and a space, scan timing immediate, scan on, in this order, and
    records the token in [current_mode]. *)
Theorem set_mode_multi_channel_commands
    (mode : string) (d : driver) (log : list io_event)
    (dict : gmap string (list channel)) (chans : list channel) :
  _instr d = Some log ->
  modes_channels_dict d = Some dict ->
  rear_panel mode = true ->
  PyStr.contains "SCAN_LIST" (rear_token mode) = false ->
  dict !! rear_token mode = Some chans ->
  (2 <= length chans)%nat ->
  commas_inside chans = 0%nat ->
  exists d',
    set_mode mode d
    = (d', Ok (Some ("(@" ++ PyStr.join ", " (map PyRepr.of_channel chans)
                          ++ ")")%string)) /\
    _instr d'
    = Some (log ++
        [Write "TRAC:CLE";
         Write "INIT:CONT OFF";
         Write "TRIG:COUN 1";
         Write ("SAMP:COUN " ++ PyStr.of_int (Z.of_nat (length chans)));
         Write "TRIG:SOUR BUS";
         Write "ROUT:SCAN:LSEL NONE";
         Write ("ROUT:SCAN (@" ++ PyStr.join ", " (map PyRepr.of_channel chans)
                  ++ ")");
         Write "ROUT:SCAN:TSO IMM";
         Write "ROUT:SCAN:LSEL INT"]) /\
    current_mode d' = Some (rear_token mode).
Proof.
  intros Hlog Hdict Hrear Hfull Hkey Hlen Hcommas.
  unfold rear_panel, rear_token in *.
  destruct d as [i rn ins sc rs cm csl dc]; cbn in Hlog, Hdict; subst.
  unfold set_mode. rewrite Hrear. run_method.
  rewrite Hfull. run_method. rewrite Hkey. run_method.
  assert (Hnil : chans <> []) by (destruct chans; [simpl in Hlen; lia | discriminate]).
  rewrite (samp_count_channels chans Hnil), Hcommas, Nat.add_0_r.
  destruct (Z.eqb_spec (Z.of_nat (length chans)) 1) as [Heq | Hne]; [lia |].
  rewrite strip_ends_of_list. run_method.
  eexists. split; [reflexivity |]. run_method. flatten_log. repeat split.
Qed.

Lemma set_mode_multi_channel_commands_witness :
  exists d',
    set_mode "scan_volt:dc" example_driver = (d', Ok (Some "(@101, 102)")) /\
    _instr d'
    = Some [Write "TRAC:CLE"; Write "INIT:CONT OFF"; Write "TRIG:COUN 1";
            Write "SAMP:COUN 2"; Write "TRIG:SOUR BUS";
            Write "ROUT:SCAN:LSEL NONE"; Write "ROUT:SCAN (@101, 102)";
            Write "ROUT:SCAN:TSO IMM"; Write "ROUT:SCAN:LSEL INT"] /\
    current_mode d' = Some "VOLT:DC".
Proof.
  apply (set_mode_multi_channel_commands "scan_volt:dc" example_driver []
           {[ "VOLT:DC" := [ChanInt 101; ChanInt 102];
              "RES" := [ChanInt 105];
              "TEMP" := [] ]}
           [ChanInt 101; ChanInt 102]);
    reflexivity.
Defined.



(** ** [set_mode] against its closed form *)

Ltac close_outcome :=
  run_method;
  cbv beta iota zeta delta
    [configured sent sc_after rs_after cm_after returned rear_prologue
     scan_list_commands single_channel_commands multi_channel_commands
     rsrc_name instr sample_count_1 current_mode channels_scan_list
     modes_channels_dict];
  flatten_log; reflexivity.

(** On an opened driver [set_mode] does what [set_mode_outcome] says. *)
Lemma set_mode_closed_form (mode : string) (d : driver) (log : list io_event) :
  _instr d = Some log ->
  set_mode mode d
  = (configured (log ++ sent (set_mode_outcome mode d))
       (sc_after (set_mode_outcome mode d))
       (rs_after (set_mode_outcome mode d))
       (cm_after (set_mode_outcome mode d)) d,
     returned (set_mode_outcome mode d)).
Proof.
  intros Hlog.
  destruct d as [i rn ins sc rs cm csl dc]; cbn in Hlog; subst.
  unfold set_mode, set_mode_outcome.
  cbv beta iota zeta delta
    [negb sample_count_1 current_mode channels_scan_list modes_channels_dict].
  destruct (PyStr.contains "SCAN" (PyStr.upper mode)); [| close_outcome].
  run_method.
  destruct (PyStr.contains "SCAN_LIST" (PyStr.drop 5 (PyStr.upper mode))).
  - destruct csl as [scan_list |]; close_outcome.
  - destruct dc as [dict |]; [| close_outcome]. run_method.
    destruct (dict !! PyStr.drop 5 (PyStr.upper mode)) as [chans |];
      [| close_outcome].
    run_method.
    match goal with
    | |- context [Z.eqb ?a 1] => destruct (Z.eqb a 1)
    end; [| close_outcome].
    destruct sc as [[] |]; close_outcome.
Qed.

Lemma set_mode_unopened (mode : string) (d : driver) :
  _instr d = None -> set_mode mode d = (d, Raise (AttributeError "write")).
Proof.
  intros Hlog.
  destruct d as [i rn ins sc rs cm csl dc]; cbn in Hlog; subst.
  unfold set_mode.
  destruct (PyStr.contains "SCAN" (PyStr.upper mode)); run_method; reflexivity.
Qed.

(** What the closed form says of the attributes after a call that returned,
    and of two calls in a row. *)
Lemma outcome_returned (mode : string) (d : driver) (v : option string) :
  returned (set_mode_outcome mode d) = Ok v ->
  exists single,
    sc_after (set_mode_outcome mode d) = Some single /\
    (rear_panel mode = false -> single = true) /\
    (full_scan_list mode = true -> single = false).
Proof.
  unfold set_mode_outcome, full_scan_list, rear_panel, rear_token.
  destruct (PyStr.contains "SCAN" (PyStr.upper mode)); cbn [negb andb].
  - destruct (PyStr.contains "SCAN_LIST" (PyStr.drop 5 (PyStr.upper mode))).
    + destruct (channels_scan_list d); cbn [returned sc_after rs_after cm_after sent]; [| discriminate].
      intros _. exists false. repeat split. discriminate.
    + destruct (modes_channels_dict d) as [dict |]; cbn [returned sc_after rs_after cm_after sent]; [| discriminate].
      destruct (dict !! PyStr.drop 5 (PyStr.upper mode)); cbn [returned sc_after rs_after cm_after sent]; [| discriminate].
      match goal with
      | |- context [Z.eqb ?a 1] => destruct (Z.eqb a 1)
      end.
      * destruct (sample_count_1 d); cbn [returned sc_after rs_after cm_after sent]; [| discriminate].
        intros _. exists true. repeat split; discriminate.
      * cbn [returned sc_after rs_after cm_after sent]. intros _. exists false. repeat split; discriminate.
  - cbn [returned sc_after rs_after cm_after sent]. intros _. exists true. repeat split. discriminate.
Qed.

Lemma outcome_stable (mode : string) (d : driver) (v : option string)
    (log : list io_event) :
  returned (set_mode_outcome mode d) = Ok v ->
  set_mode_outcome mode
    (configured log (sc_after (set_mode_outcome mode d))
       (rs_after (set_mode_outcome mode d))
       (cm_after (set_mode_outcome mode d)) d)
  = set_mode_outcome mode d.
Proof.
  unfold set_mode_outcome.
  cbv beta iota zeta delta
    [configured sample_count_1 current_mode channels_scan_list
     modes_channels_dict].
  destruct d as [i rn ins sc rs cm csl dc].
  destruct (PyStr.contains "SCAN" (PyStr.upper mode)); cbn [negb];
    [| reflexivity].
  destruct (PyStr.contains "SCAN_LIST" (PyStr.drop 5 (PyStr.upper mode))).
  - destruct csl; reflexivity.
  - destruct dc as [dict |]; [| discriminate].
    destruct (dict !! PyStr.drop 5 (PyStr.upper mode)); [| discriminate].
    match goal with
    | |- context [Z.eqb ?a 1] => destruct (Z.eqb a 1)
    end; [| reflexivity].
    destruct sc; [reflexivity | discriminate].
Qed.

Lemma outcome_raised (mode : string) (d : driver) (e : exn) :
  rear_panel mode = true ->
  returned (set_mode_outcome mode d) = Raise e ->
  (exists rest, sent (set_mode_outcome mode d) = rear_prologue ++ rest) /\
  cm_after (set_mode_outcome mode d) = Some (rear_token mode) /\
  rs_after (set_mode_outcome mode d)
  = Some (PyStr.contains "SCAN_LIST" (rear_token mode)) /\
  (e = AttributeError "channels_scan_list" \/
   e = AttributeError "modes_channels_dict" \/
   e = KeyError (rear_token mode) \/
   e = AttributeError "sample_count_1").
Proof.
  unfold set_mode_outcome, rear_panel, rear_token. intros ->. cbn [negb].
  destruct (PyStr.contains "SCAN_LIST" (PyStr.drop 5 (PyStr.upper mode))).
  - destruct (channels_scan_list d); cbn [returned sc_after rs_after cm_after sent]; [discriminate |].
    intros [= <-]. repeat split; [exists []; reflexivity | auto].
  - destruct (modes_channels_dict d) as [dict |]; cbn [returned sc_after rs_after cm_after sent].
    2: { intros [= <-]. repeat split; [exists []; reflexivity | auto]. }
    destruct (dict !! PyStr.drop 5 (PyStr.upper mode)); cbn [returned sc_after rs_after cm_after sent].
    2: { intros [= <-]. repeat split; [exists []; reflexivity | auto]. }
    match goal with
    | |- context [Z.eqb ?a 1] => destruct (Z.eqb a 1)
    end; [| discriminate].
    destruct (sample_count_1 d); cbn [returned sc_after rs_after cm_after sent]; [discriminate |].
    intros [= <-]. repeat split; [eexists; reflexivity | auto 6].
Qed.

Lemma outcome_reading_scan_list (mode : string) (d : driver) :
  rs_after (set_mode_outcome mode d) = Some (full_scan_list mode).
Proof.
  unfold set_mode_outcome, full_scan_list, rear_panel, rear_token.
  destruct (PyStr.contains "SCAN" (PyStr.upper mode)); cbn [negb andb];
    [| reflexivity].
  destruct (PyStr.contains "SCAN_LIST" (PyStr.drop 5 (PyStr.upper mode))).
  - destruct (channels_scan_list d); reflexivity.
  - destruct (modes_channels_dict d) as [dict |]; [| reflexivity].
    destruct (dict !! PyStr.drop 5 (PyStr.upper mode)); [| reflexivity].
    match goal with
    | |- context [Z.eqb ?a 1] => destruct (Z.eqb a 1)
    end; [| reflexivity].
    destruct (sample_count_1 d); reflexivity.
Qed.

(** [data] on an opened driver whose [sample_count_1] exists. *)
Lemma data_closed_form
    (reply : string) (d : driver) (log : list io_event) (single : bool) :
  _instr d = Some log ->
  sample_count_1 d = Some single ->
  data reply d
  = (set_instr (log ++ fetch_commands single) d,
     rbind (decode reply single) (fun a => Ok (reply, fst a, snd a))).
Proof.
  intros Hlog Hsingle.
  destruct d as [i rn ins sc rs cm csl dc]; cbn in Hlog, Hsingle; subst.
  unfold data, fetch_commands.
  destruct single; run_method;
    destruct (decode reply _); run_method; flatten_log; reflexivity.
Qed.

Lemma decode_raises_kinds (raw : string) (single : bool) (e : exn) :
  decode raw single = Raise e ->
  e = IndexError \/ exists text, e = ValueError text.
Proof.
  destruct (Nat.eq_dec (length (PyStr.split "," raw) mod 3) 1) as [H1 | H1].
  - rewrite (decode_one_token_more raw single H1). intros [= <-]. now left.
  - rewrite (decode_as_tokens raw single H1). intros H. right.
    now apply decode_by_token_raises in H.
Qed.

Lemma data_cases (reply : string) (d : driver) :
  (exists attr, data reply d = (d, Raise (AttributeError attr))) \/
  (exists log single,
     _instr d = Some log /\ sample_count_1 d = Some single /\
     data reply d
     = (set_instr (log ++ fetch_commands single) d,
        rbind (decode reply single) (fun a => Ok (reply, fst a, snd a)))).
Proof.
  destruct (sample_count_1 d) as [single |] eqn:Hsingle.
  - destruct (_instr d) as [log |] eqn:Hlog.
    + right. exists log, single. repeat split.
      now apply data_closed_form.
    + left. destruct d as [i rn ins sc rs cm csl dc];
        cbn in Hlog, Hsingle; subst.
      unfold data. destruct single; run_method; eexists; reflexivity.
  - left. destruct d as [i rn ins sc rs cm csl dc]; cbn in Hsingle; subst.
    unfold data. run_method. eexists; reflexivity.
Qed.

(** ** [data]: what it returns and how it fails *)

(** X15. When [data] returns, the first component is the reply of the
    instrument as it came, the arrays are those decoded from it, and the
    driver differs from the one before only by the fetch commands added to
    what was sent. *)
Theorem data_returns
    (reply : string) (d d' : driver) (answer : string)
    (values times : list float) :
  data reply d = (d', Ok (answer, values, times)) ->
  answer = reply /\
  exists log single,
    _instr d = Some log /\
    sample_count_1 d = Some single /\
    d' = set_instr (log ++ fetch_commands single) d /\
    decode reply single = Ok (values, times).
Proof.
  intros H.
  destruct (data_cases reply d) as [[attr Hd] | (log & single & Hl & Hs & Hd)];
    rewrite Hd in H; [discriminate H |].
  destruct (decode reply single) as [[vs ts] |] eqn:Hdec;
    cbn [rbind fst snd] in H; [| discriminate H].
  injection H as <- <- <- <-. split; [reflexivity |].
  exists log, single. repeat split; assumption.
Qed.

Lemma data_returns_witness :
  "+1.5VDC,+0.25SEC,+1RDNG#" = "+1.5VDC,+0.25SEC,+1RDNG#" /\
  exists log single,
    _instr example_driver = Some log /\
    sample_count_1 example_driver = Some single /\
    set_instr [Write "INIT"; Write "*TRG"; Query "FETCH?"] example_driver
    = set_instr (log ++ fetch_commands single) example_driver /\
    decode "+1.5VDC,+0.25SEC,+1RDNG#" single = Ok ([1.5%float], [0.25%float]).
Proof.
  apply (data_returns "+1.5VDC,+0.25SEC,+1RDNG#" example_driver
           (set_instr [Write "INIT"; Write "*TRG"; Query "FETCH?"] example_driver)
           "+1.5VDC,+0.25SEC,+1RDNG#" [1.5%float] [0.25%float]).
  vm_compute. reflexivity.
Defined.

(** X16. How [data] fails.  An [AttributeError] (no [sample_count_1], or no
    session) is raised before anything is sent and leaves the driver as it
    was; every other exception is an [IndexError] or a [ValueError] of the
    decoding, raised after the fetch commands went out: the reading is
    consumed and lost. *)
Theorem data_failure (reply : string) (d d' : driver) (e : exn) :
  data reply d = (d', Raise e) ->
  ((exists attr, e = AttributeError attr) /\ d' = d) \/
  ((e = IndexError \/ exists text, e = ValueError text) /\
   exists log single,
     _instr d = Some log /\
     sample_count_1 d = Some single /\
     d' = set_instr (log ++ fetch_commands single) d).
Proof.
  intros H.
  destruct (data_cases reply d) as [[attr Hd] | (log & single & Hl & Hs & Hd)];
    rewrite Hd in H.
  - injection H as <- <-. left. split; [eexists |]; reflexivity.
  - destruct (decode reply single) as [a |] eqn:Hdec; cbn [rbind] in H;
      [discriminate H |].
    injection H as <- <-. right. split.
    + now apply decode_raises_kinds in Hdec.
    + exists log, single. repeat split; assumption.
Qed.

Lemma data_failure_witness :
  ((exists attr, IndexError = AttributeError attr) /\
   set_instr [Write "INIT"; Write "*TRG"; Query "FETCH?"] example_driver
   = example_driver) \/
  ((IndexError = IndexError \/ exists text, IndexError = ValueError text) /\
   exists log single,
     _instr example_driver = Some log /\
     sample_count_1 example_driver = Some single /\
     set_instr [Write "INIT"; Write "*TRG"; Query "FETCH?"] example_driver
     = set_instr (log ++ fetch_commands single) example_driver).
Proof.
  apply (data_failure "+1.5VDC" example_driver
           (set_instr [Write "INIT"; Write "*TRG"; Query "FETCH?"] example_driver)
           IndexError).
  vm_compute. reflexivity.
Defined.

(** ** [set_mode] repeated, failing, and followed by [data] *)

(** X17. A request that returned, made once more: it returns the same value,
    sends the same commands a second time, and leaves every attribute as the
    first call left it. *)
Theorem set_mode_twice
    (mode : string) (d d1 : driver) (v : option string) :
  set_mode mode d = (d1, Ok v) ->
  exists log cmds,
    _instr d = Some log /\
    _instr d1 = Some (log ++ cmds) /\
    set_mode mode d1 = (set_instr ((log ++ cmds) ++ cmds) d1, Ok v).
Proof.
  intros H.
  destruct (_instr d) as [log |] eqn:Hlog.
  2: { rewrite (set_mode_unopened mode d Hlog) in H. discriminate H. }
  rewrite (set_mode_closed_form mode d log Hlog) in H.
  injection H as Hd Hv.
  exists log, (sent (set_mode_outcome mode d)).
  split; [reflexivity |]. subst d1. split; [reflexivity |].
  rewrite (set_mode_closed_form mode
             (configured (log ++ sent (set_mode_outcome mode d))
                (sc_after (set_mode_outcome mode d))
                (rs_after (set_mode_outcome mode d))
                (cm_after (set_mode_outcome mode d)) d)
             (log ++ sent (set_mode_outcome mode d)) eq_refl).
  rewrite (outcome_stable mode d v _ Hv), Hv. reflexivity.
Qed.

Lemma set_mode_twice_witness :
  exists log cmds,
    _instr example_driver = Some log /\
    _instr (fst (set_mode "scan_res" example_driver)) = Some (log ++ cmds) /\
    set_mode "scan_res" (fst (set_mode "scan_res" example_driver))
    = (set_instr ((log ++ cmds) ++ cmds)
         (fst (set_mode "scan_res" example_driver)),
       Ok (Some "(@105)")).
Proof.
  apply (set_mode_twice "scan_res" example_driver
           (fst (set_mode "scan_res" example_driver)) (Some "(@105)")).
  vm_compute. reflexivity.
Defined.

(** X18. A rear-panel request that raises on an opened driver has already
    acted: the buffer was cleared, continuous initiation switched off,
    [current_mode] overwritten with the token of the failed request and
    [reading_scan_list] assigned.  The exception is the [AttributeError] of
    an attribute the plugin has not set, or of [sample_count_1], or the
    [KeyError] of a token that is not in the table. *)
Theorem set_mode_rear_failure
    (mode : string) (d d' : driver) (log : list io_event) (e : exn) :
  _instr d = Some log ->
  rear_panel mode = true ->
  set_mode mode d = (d', Raise e) ->
  (exists rest,
     _instr d'
     = Some (log ++ [Write "TRAC:CLE"; Write "INIT:CONT OFF"] ++ rest)) /\
  current_mode d' = Some (rear_token mode) /\
  reading_scan_list d' = Some (PyStr.contains "SCAN_LIST" (rear_token mode)) /\
  (e = AttributeError "channels_scan_list" \/
   e = AttributeError "modes_channels_dict" \/
   e = KeyError (rear_token mode) \/
   e = AttributeError "sample_count_1").
Proof.
  intros Hlog Hrear H.
  rewrite (set_mode_closed_form mode d log Hlog) in H.
  injection H as Hd He. subst d'.
  destruct (outcome_raised mode d e Hrear He) as ([rest Hsent] & Hcm & Hrs & Hexn).
  cbn [configured _instr current_mode reading_scan_list].
  rewrite Hsent. repeat split; try assumption.
  exists rest. reflexivity.
Qed.

Lemma set_mode_rear_failure_witness :
  (exists rest,
     _instr (fst (set_mode "scan_power" example_driver))
     = Some ([] ++ [Write "TRAC:CLE"; Write "INIT:CONT OFF"] ++ rest)) /\
  current_mode (fst (set_mode "scan_power" example_driver))
  = Some (rear_token "scan_power") /\
  reading_scan_list (fst (set_mode "scan_power" example_driver))
  = Some (PyStr.contains "SCAN_LIST" (rear_token "scan_power")) /\
  (KeyError "POWER" = AttributeError "channels_scan_list" \/
   KeyError "POWER" = AttributeError "modes_channels_dict" \/
   KeyError "POWER" = KeyError (rear_token "scan_power") \/
   KeyError "POWER" = AttributeError "sample_count_1").
Proof.
  apply (set_mode_rear_failure "scan_power" example_driver
           (fst (set_mode "scan_power" example_driver)) [] (KeyError "POWER"));
    vm_compute; reflexivity.
Defined.

(** X19. After any request that returned, [data] finds its session and its
    [sample_count_1]: it sends the fetch commands, changes nothing else, and
    fails only if the reply does not decode.  After a front-panel request it
    sends the query alone; after a request for the whole scan list it
    initiates and triggers first, also for a scan list of one channel. *)
Theorem data_after_set_mode
    (mode reply : string) (d d1 : driver) (v : option string) :
  set_mode mode d = (d1, Ok v) ->
  exists log single,
    _instr d1 = Some log /\
    sample_count_1 d1 = Some single /\
    data reply d1
    = (set_instr (log ++ fetch_commands single) d1,
       rbind (decode reply single) (fun a => Ok (reply, fst a, snd a))) /\
    (rear_panel mode = false -> single = true) /\
    (full_scan_list mode = true -> single = false).
Proof.
  intros H.
  destruct (_instr d) as [log |] eqn:Hlog.
  2: { rewrite (set_mode_unopened mode d Hlog) in H. discriminate H. }
  rewrite (set_mode_closed_form mode d log Hlog) in H.
  injection H as Hd Hv.
  destruct (outcome_returned mode d v Hv) as (single & Hsc & Hfront & Hfull).
  exists (log ++ sent (set_mode_outcome mode d)), single.
  assert (Hl1 : _instr d1 = Some (log ++ sent (set_mode_outcome mode d)))
    by (subst d1; reflexivity).
  assert (Hs1 : sample_count_1 d1 = Some single) by (subst d1; exact Hsc).
  repeat split; try assumption.
  now apply data_closed_form.
Qed.

Lemma data_after_set_mode_witness :
  exists log single,
    _instr (fst (set_mode "scan_scan_list" example_driver)) = Some log /\
    sample_count_1 (fst (set_mode "scan_scan_list" example_driver))
    = Some single /\
    data "+1.5VDC,+0.25SEC,+1RDNG#"
      (fst (set_mode "scan_scan_list" example_driver))
    = (set_instr (log ++ fetch_commands single)
         (fst (set_mode "scan_scan_list" example_driver)),
       rbind (decode "+1.5VDC,+0.25SEC,+1RDNG#" single)
         (fun a => Ok ("+1.5VDC,+0.25SEC,+1RDNG#", fst a, snd a))) /\
    (rear_panel "scan_scan_list" = false -> single = true) /\
    (full_scan_list "scan_scan_list" = true -> single = false).
Proof.
  apply (data_after_set_mode "scan_scan_list" "+1.5VDC,+0.25SEC,+1RDNG#"
           example_driver (fst (set_mode "scan_scan_list" example_driver))
           (Some "(@101,102,103)")).
  vm_compute. reflexivity.
Defined.

(** X20. On an opened driver [reading_scan_list] after [set_mode] says
    whether the request was for the whole scan list, whether the call
    returned or raised. *)
Theorem set_mode_reading_scan_list
    (mode : string) (d : driver) (log : list io_event) :
  _instr d = Some log ->
  reading_scan_list (fst (set_mode mode d)) = Some (full_scan_list mode).
Proof.
  intros Hlog. rewrite (set_mode_closed_form mode d log Hlog).
  apply outcome_reading_scan_list.
Qed.

Lemma set_mode_reading_scan_list_witness :
  reading_scan_list (fst (set_mode "scan_scan_list" empty_scan_driver))
  = Some (full_scan_list "scan_scan_list").
Proof.
  apply (set_mode_reading_scan_list "scan_scan_list" empty_scan_driver []).
  reflexivity.
Defined.

(** ** The methods that only write *)

(** X21. The buffer and initiation switches, [reset], [stop_acquisition] and
    the three temperature set-ups, whatever their arguments: on an opened
    driver each sends one command or more, all of them writes, changes no
    attribute and returns [None]; on a driver whose session was not opened
    each raises [AttributeError] and leaves the driver as it was. *)
Theorem write_only_methods_frame
    (channel transducer kind ref_junc : string) (m : M unit) (d : driver) :
  In m (write_only_methods channel transducer kind ref_junc) ->
  (forall log,
     _instr d = Some log ->
     exists cmds,
       cmds <> [] /\ forallb is_write cmds = true /\
       m d = (set_instr (log ++ cmds) d, Ok tt)) /\
  (_instr d = None -> m d = (d, Raise (AttributeError "write"))).
Proof.
  intros Hin. destruct d as [i rn ins sc rs cm csl dc].
  unfold write_only_methods in Hin. cbn [In] in Hin.
  split; [intros log Hlog | intros Hlog]; cbn in Hlog; subst;
    repeat (destruct Hin as [<- | Hin]); try contradiction;
    unfold clear_buffer, clear_buffer_off, clear_buffer_on, init_cont_off,
      init_cont_on, reset, stop_acquisition, mode_temp_frtd, mode_temp_tc,
      mode_temp_ther;
    run_method; flatten_log;
    try reflexivity;
    (eexists; split; [| split; [| reflexivity]]; [discriminate | reflexivity]).
Qed.

Lemma write_only_methods_frame_witness :
  (forall log,
     _instr example_driver = Some log ->
     exists cmds,
       cmds <> [] /\ forallb is_write cmds = true /\
       mode_temp_tc "101" "TC" "K" "INT" example_driver
       = (set_instr (log ++ cmds) example_driver, Ok tt)) /\
  (_instr example_driver = None ->
   mode_temp_tc "101" "TC" "K" "INT" example_driver
   = (example_driver, Raise (AttributeError "write"))).
Proof.
  apply (write_only_methods_frame "101" "TC" "K" "INT"
           (mode_temp_tc "101" "TC" "K" "INT") example_driver).
  cbn [write_only_methods In]. do 8 right. left. reflexivity.
Defined.

Lemma samp_count_wrapped (s : string) :
  samp_count_of ("(@" ++ s ++ ")")%string
  = Z.of_nat (1 + PyStr.count "," s).
Proof.
  unfold samp_count_of.
  change ("(@" ++ s ++ ")")%string with ("(@" ++ (s ++ ")"))%string.
  rewrite !count_append.
  change (PyStr.count "," "(@") with 0%nat.
  change (PyStr.count "," ")") with 0%nat. lia.
Qed.

(** Names the value of a call that returned, leaving it as it is written. *)
Ltac ok_value :=
  let H := fresh in
  intros H;
  match type of H with
  | Ok ?x = Ok ?v => assert (v = x) by congruence; subst v; clear H
  end;
  cbv beta iota.

Ltac some_value :=
  match goal with
  | H : Some ?x = Some ?v |- _ => assert (v = x) by congruence; subst v; clear H
  end.

Lemma outcome_sample_count (mode : string) (d : driver) (v : option string) :
  returned (set_mode_outcome mode d) = Ok v ->
  sc_after (set_mode_outcome mode d)
  = Some (match v with
          | None => true
          | Some channels =>
              negb (full_scan_list mode) && (samp_count_of channels =? 1)%Z
          end) /\
  (forall channels,
     v = Some channels ->
     In (Write ("SAMP:COUN " ++ PyStr.of_int (samp_count_of channels)))
        (sent (set_mode_outcome mode d))).
Proof.
  unfold set_mode_outcome, full_scan_list, rear_panel, rear_token.
  destruct (PyStr.contains "SCAN" (PyStr.upper mode)); cbn [negb andb].
  - destruct (PyStr.contains "SCAN_LIST" (PyStr.drop 5 (PyStr.upper mode)));
      cbn [negb andb].
    + destruct (channels_scan_list d);
        cbn [returned sc_after sent]; [| discriminate].
      ok_value. split; [reflexivity |].
      intros channels Hc; some_value. unfold scan_list_commands, rear_prologue.
      cbn [app In]. auto 6.
    + destruct (modes_channels_dict d) as [dict |];
        cbn [returned sc_after sent]; [| discriminate].
      destruct (dict !! PyStr.drop 5 (PyStr.upper mode));
        cbn [returned sc_after sent]; [| discriminate].
      match goal with
      | |- context [Z.eqb ?a 1] => destruct (Z.eqb a 1) eqn:Hone
      end.
      * destruct (sample_count_1 d);
          cbn [returned sc_after sent]; [| discriminate].
        ok_value. rewrite Hone. split; [reflexivity |].
        intros channels Hc; some_value. unfold single_channel_commands, rear_prologue.
        cbn [app In]. auto 6.
      * cbn [returned sc_after sent]. ok_value. rewrite Hone.
        split; [reflexivity |].
        intros channels Hc; some_value. unfold multi_channel_commands, rear_prologue.
        cbn [app In]. auto 6.
  - cbn [returned sc_after sent]. ok_value. split; [reflexivity |].
    intros channels H. discriminate H.
Qed.

(** X22. The scan list is never parsed.  Whatever string the plugin stored
    in [channels_scan_list], the request for the whole scan list on an
    opened driver returns, sends the string between ["(@"] and [")"] as it
    is and programs one sample more than the string has commas; it leaves
    [sample_count_1 = False], also when that count is 1. *)
Theorem set_mode_scan_list_any
    (mode : string) (d : driver) (log : list io_event) (scan_list : string) :
  _instr d = Some log ->
  channels_scan_list d = Some scan_list ->
  full_scan_list mode = true ->
  exists d',
    set_mode mode d = (d', Ok (Some ("(@" ++ scan_list ++ ")")%string)) /\
    _instr d'
    = Some (log ++
        [Write "TRAC:CLE";
         Write "INIT:CONT OFF";
         Write "TRIG:COUN 1";
         Write "TRIG:SOUR BUS";
         Write ("SAMP:COUN "
                ++ PyStr.of_int (Z.of_nat (1 + PyStr.count "," scan_list)));
         Write "ROUT:SCAN:LSEL NONE";
         Write ("ROUT:SCAN (@" ++ scan_list ++ ")");
         Write "ROUT:SCAN:TSO IMM";
         Write "ROUT:SCAN:LSEL INT"]) /\
    sample_count_1 d' = Some false /\
    reading_scan_list d' = Some true /\
    current_mode d' = Some (rear_token mode).
Proof.
  intros Hlog Hlist Hmode.
  unfold full_scan_list, rear_panel, rear_token in Hmode.
  apply andb_prop in Hmode as [Hrear Hfull].
  rewrite (set_mode_closed_form mode d log Hlog).
  unfold set_mode_outcome, rear_token. rewrite Hrear, Hfull, Hlist.
  cbn [negb sent sc_after rs_after cm_after returned].
  eexists. split; [reflexivity |].
  cbn [configured _instr sample_count_1 reading_scan_list current_mode].
  unfold scan_list_commands, rear_prologue. cbn [app].
  rewrite samp_count_wrapped. repeat split.
Qed.

Lemma set_mode_scan_list_any_witness :
  exists d',
    set_mode "scan_scan_list"
      (Driver (Some []) "ASRL1::INSTR" "" None None None (Some "101") None)
    = (d', Ok (Some "(@101)")) /\
    _instr d'
    = Some [Write "TRAC:CLE"; Write "INIT:CONT OFF"; Write "TRIG:COUN 1";
            Write "TRIG:SOUR BUS"; Write "SAMP:COUN 1";
            Write "ROUT:SCAN:LSEL NONE"; Write "ROUT:SCAN (@101)";
            Write "ROUT:SCAN:TSO IMM"; Write "ROUT:SCAN:LSEL INT"] /\
    sample_count_1 d' = Some false /\
    reading_scan_list d' = Some true /\
    current_mode d' = Some "SCAN_LIST".
Proof.
  apply (set_mode_scan_list_any "scan_scan_list"
           (Driver (Some []) "ASRL1::INSTR" "" None None None (Some "101") None)
           [] "101");
    reflexivity.
Defined.

(** X23. After a request that returned, [sample_count_1] can be read off
    the value returned: it is [True] after a front-panel request ([None]
    returned) and, on the rear panel, exactly when the request was for one
    function and the channel set returned has no comma; the sample count
    sent to the instrument is one more than the commas of that set. *)
Theorem sample_count_1_after_set_mode
    (mode : string) (d d' : driver) (v : option string) :
  set_mode mode d = (d', Ok v) ->
  sample_count_1 d'
  = Some (match v with
          | None => true
          | Some channels =>
              negb (full_scan_list mode) && (samp_count_of channels =? 1)%Z
          end) /\
  (forall channels,
     v = Some channels ->
     exists log cmds,
       _instr d = Some log /\
       _instr d' = Some (log ++ cmds) /\
       In (Write ("SAMP:COUN " ++ PyStr.of_int (samp_count_of channels))) cmds).
Proof.
  intros H.
  destruct (_instr d) as [log |] eqn:Hlog.
  2: { rewrite (set_mode_unopened mode d Hlog) in H. discriminate H. }
  rewrite (set_mode_closed_form mode d log Hlog) in H.
  injection H as Hd Hv. subst d'.
  destruct (outcome_sample_count mode d v Hv) as [Hsc Hsent].
  split; [exact Hsc |].
  intros channels Hchannels.
  exists log, (sent (set_mode_outcome mode d)).
  repeat split. now apply Hsent.
Qed.

Lemma sample_count_1_after_set_mode_witness :
  sample_count_1 (fst (set_mode "scan_volt:dc" example_driver))
  = Some (negb (full_scan_list "scan_volt:dc")
          && (samp_count_of "(@101, 102)" =? 1)%Z) /\
  (forall channels,
     Some "(@101, 102)" = Some channels ->
     exists log cmds,
       _instr example_driver = Some log /\
       _instr (fst (set_mode "scan_volt:dc" example_driver))
       = Some (log ++ cmds) /\
       In (Write ("SAMP:COUN " ++ PyStr.of_int (samp_count_of channels))) cmds).
Proof.
  apply (sample_count_1_after_set_mode "scan_volt:dc" example_driver
           (fst (set_mode "scan_volt:dc" example_driver))
           (Some "(@101, 102)")).
  vm_compute. reflexivity.
Defined.
